(** * EC2 Transit Gateway Route Table resource: lifecycle handler

    A shallow embedding of
    [aws/resource_aws_ec2_transit_gateway_route_table.go]: the four
    lifecycle functions of the resource (Create, Read, Update, Delete),
    the part of the AWS SDK and of the Terraform plugin SDK they touch,
    and theorems about their error handling and their effect on the
    stored state.

    The Go functions mutate the [*schema.ResourceData] they receive and
    talk to EC2 through the connection held by the [*AWSClient].  Both
    are threaded through a small state monad; a dereference of a nil
    pointer is a [Panic].  Calls to [log.Printf] have no effect on the
    result and are left out. *)

From Stdlib Require Import String Bool List.
From stdpp Require Import base option gmap strings fin_maps.

Open Scope string_scope.
Open Scope list_scope.

(** ** Go values *)

(** [aws.StringValue] and [aws.BoolValue]: the value behind a pointer,
    the zero value behind nil. *)
Definition aws_StringValue (v : option string) : string :=
  match v with
  | Some s => s
  | None => ""
  end.

Definition aws_BoolValue (v : option bool) : bool :=
  match v with
  | Some b => b
  | None => false
  end.

(** [aws.String]: a pointer to the given string. *)
Definition aws_String (s : string) : option string := Some s.

(** [strings.Contains]. *)
Fixpoint strings_Contains (s substr : string) : bool :=
  String.prefix substr s ||
  match s with
  | EmptyString => false
  | String _ rest => strings_Contains rest substr
  end.

(** ** Errors *)

(** A Go [error] is either an AWS SDK error, which carries a code and a
    message ([awserr.Error]), or the plain error value that [fmt.Errorf]
    builds when its format has no [%w] verb. *)
Inductive error : Type :=
| AwsErr (code message : string)
| ErrorString (text : string).

#[global] Instance error_eq_dec : EqDecision error.
Proof. solve_decision. Defined.

(** The [Error()] method.  For an AWS error without an original error
    this is [awserr.SprintError]: the code, a colon, the message.  (An
    [awserr.RequestFailure] prints the status code and the request
    identifier after that; the handler never inspects the text, it only
    puts its own words in front of it, and the theorems below state the
    returned error through [fmt_Errorf] and [Error], not through the
    text.) *)
Definition Error (e : error) : string :=
  match e with
  | AwsErr code message => code +:+ ": " +:+ message
  | ErrorString text => text
  end.

(** [fmt.Errorf(prefix + "%s", err)]. *)
Definition fmt_Errorf (prefix : string) (err : error) : error :=
  ErrorString (prefix +:+ Error err).

(** Modelled from the spec: [isAWSErr] is a helper of this package that
    is declared in another file; a remote error is looked up by a fixed
    error-code string, and the third argument restricts the match to
    messages that contain it (every message contains the empty string
    the handler passes). *)
Definition isAWSErr (err : option error) (code message : string) : bool :=
  match err with
  | Some (AwsErr c m) => String.eqb c code && strings_Contains m message
  | _ => false
  end.

(** ** The part of the EC2 API the handler uses *)

Module ec2.

Definition ServiceName : string := "ec2".
Definition ResourceTypeTransitGatewayRouteTable : string :=
  "transit-gateway-route-table".
Definition TransitGatewayRouteTableStateAvailable : string := "available".
Definition TransitGatewayRouteTableStateDeleting : string := "deleting".
Definition TransitGatewayRouteTableStateDeleted : string := "deleted".

Record Tag : Type := {
  Key : option string;
  Value : option string
}.

Record TagSpecification : Type := {
  ResourceType : option string;
  SpecTags : list Tag
}.

(** [ec2.TransitGatewayRouteTable]; every field is a pointer in Go. *)
Record TransitGatewayRouteTable : Type := {
  DefaultAssociationRouteTable : option bool;
  DefaultPropagationRouteTable : option bool;
  State : option string;
  Tags : list Tag;
  TransitGatewayId : option string;
  TransitGatewayRouteTableId : option string
}.

Record CreateTransitGatewayRouteTableInput : Type := {
  CreateTransitGatewayId : option string;
  TagSpecifications : list TagSpecification
}.

(** The route table of the response is a pointer: [None] is nil. *)
Record CreateTransitGatewayRouteTableOutput : Type := {
  TransitGatewayRouteTable_ : option TransitGatewayRouteTable
}.

Record DeleteTransitGatewayRouteTableInput : Type := {
  DeleteTransitGatewayRouteTableId : option string
}.

End ec2.

(** [arn.ARN] and its [String()] method. *)
Module arn.

Record ARN : Type := {
  Partition : string;
  Service : string;
  Region : string;
  AccountID : string;
  Resource : string
}.

Definition String (a : ARN) : string :=
  "arn:" +:+ Partition a +:+ ":" +:+ Service a +:+ ":" +:+ Region a
    +:+ ":" +:+ AccountID a +:+ ":" +:+ Resource a.

End arn.

(** ** Tags *)

(** A flat tag mapping, [keyvaluetags.KeyValueTags] and the value of the
    [tags] attribute alike, is a [gmap string string]. *)

(** Modelled from the spec: the user's ignore configuration of package
    [keyvaluetags], which is not among the sources.  All the handler
    needs of it is which tag keys the user configured to ignore. *)
Record IgnoreConfig : Type := {
  IgnoredKey : string -> bool
}.

(** ** The stored state: [schema.ResourceData] *)

(** The attributes of the resource, typed as its schema declares them:
    [arn] (string, computed), the two computed booleans, [tags] (a map
    of strings) and [transit_gateway_id] (string, required, ForceNew). *)
Record Attrs : Type := {
  arn_ : string;
  default_association_route_table : bool;
  default_propagation_route_table : bool;
  tags : gmap string string;
  transit_gateway_id : string
}.

(** [prior] is the snapshot the framework stored before this call (the
    old side of [GetChange]); [attrs] is what [Get] reads: the planned
    snapshot at entry (the new side of [GetChange]), then whatever [Set]
    wrote over it.  The SDK keeps what [Set] wrote in a layer of its own
    that [GetChange] and [HasChange] do not read; here the two are one
    record, which reads the same as long as no [Set] came before a
    [GetChange] on the same data.  In this handler only Update reads
    changes, and Update calls no setter. *)
Record ResourceData : Type := {
  Id : string;
  prior : Attrs;
  attrs : Attrs
}.

#[global] Instance Attrs_eq_dec : EqDecision Attrs.
Proof. solve_decision. Defined.

#[global] Instance ResourceData_eq_dec : EqDecision ResourceData.
Proof. solve_decision. Defined.

Definition with_Id (v : string) (d : ResourceData) : ResourceData :=
  {| Id := v; prior := prior d; attrs := attrs d |}.

Definition with_attrs (a : Attrs) (d : ResourceData) : ResourceData :=
  {| Id := Id d; prior := prior d; attrs := a |}.

Definition with_arn (v : string) (a : Attrs) : Attrs :=
  {| arn_ := v;
     default_association_route_table := default_association_route_table a;
     default_propagation_route_table := default_propagation_route_table a;
     tags := tags a;
     transit_gateway_id := transit_gateway_id a |}.

Definition with_default_association_route_table (v : bool) (a : Attrs) : Attrs :=
  {| arn_ := arn_ a;
     default_association_route_table := v;
     default_propagation_route_table := default_propagation_route_table a;
     tags := tags a;
     transit_gateway_id := transit_gateway_id a |}.

Definition with_default_propagation_route_table (v : bool) (a : Attrs) : Attrs :=
  {| arn_ := arn_ a;
     default_association_route_table := default_association_route_table a;
     default_propagation_route_table := v;
     tags := tags a;
     transit_gateway_id := transit_gateway_id a |}.

Definition with_tags (v : gmap string string) (a : Attrs) : Attrs :=
  {| arn_ := arn_ a;
     default_association_route_table := default_association_route_table a;
     default_propagation_route_table := default_propagation_route_table a;
     tags := v;
     transit_gateway_id := transit_gateway_id a |}.

Definition with_transit_gateway_id (v : string) (a : Attrs) : Attrs :=
  {| arn_ := arn_ a;
     default_association_route_table := default_association_route_table a;
     default_propagation_route_table := default_propagation_route_table a;
     tags := tags a;
     transit_gateway_id := v |}.

(** ** What a run of a handler does, in order *)

(** Every call that leaves the process and every write to the stored
    state is recorded, so that "performs no remote call" and "calls no
    setter" are statements about the record. *)
Inductive Event : Type :=
| EvCreateTransitGatewayRouteTable (input : ec2.CreateTransitGatewayRouteTableInput)
| EvDescribeTransitGatewayRouteTable (id : string)
| EvWaitForCreation (id : string)
| EvUpdateTags (id : string) (o n : gmap string string)
| EvDeleteTransitGatewayRouteTable (input : ec2.DeleteTransitGatewayRouteTableInput)
| EvWaitForDeletion (id : string)
| EvSetId (v : string)
| EvSet (key : string).

Definition is_remote_call (e : Event) : bool :=
  match e with
  | EvSetId _ | EvSet _ => false
  | _ => true
  end.

Definition is_setter (e : Event) : bool :=
  match e with
  | EvSetId _ | EvSet _ => true
  | _ => false
  end.

(** ** The handler monad *)

(** The state a handler runs in: the [ResourceData] it was handed, the
    remote side, and the record of what it did so far. *)
Record St (World : Type) : Type := mkSt {
  d : ResourceData;
  world : World;
  trace : list Event
}.
Arguments mkSt {World} _ _ _.
Arguments d {World} _.
Arguments world {World} _.
Arguments trace {World} _.

(** A Go function either returns or panics. *)
Inductive result (A : Type) : Type :=
| Done (a : A)
| Panic (reason : string).
Arguments Done {A} _.
Arguments Panic {A} _.

Definition H (World A : Type) : Type := St World -> result A * St World.

#[global] Instance H_ret {World} : MRet (H World) :=
  fun A (a : A) s => (Done a, s).

#[global] Instance H_bind {World} : MBind (H World) :=
  fun A B (k : A -> H World B) (m : H World A) s =>
    match m s with
    | (Done a, s') => k a s'
    | (Panic reason, s') => (Panic reason, s')
    end.

Definition panic {World A} (reason : string) : H World A :=
  fun s => (Panic reason, s).

(** Dereference of a pointer: nil panics. *)
Definition deref {World A} (p : option A) : H World A :=
  match p with
  | Some a => mret a
  | None => panic "invalid memory address or nil pointer dereference"
  end.

(** A call that leaves the process: run it on the remote side, record it. *)
Definition remote {World A} (e : Event) (call : World -> A * World) : H World A :=
  fun s =>
    let '(a, w) := call (world s) in
    (Done a, mkSt (d s) w (trace s ++ [e])).

(** *** [schema.ResourceData] methods *)

Definition d_Id {World} : H World string :=
  fun s => (Done (Id (d s)), s).

Definition d_SetId {World} (v : string) : H World unit :=
  fun s => (Done tt, mkSt (with_Id v (d s)) (world s) (trace s ++ [EvSetId v])).

Definition d_Get {World A} (field : Attrs -> A) : H World A :=
  fun s => (Done (field (attrs (d s))), s).

(** [d.Set(key, v)] with a value of the type the schema gives [key]:
    the write goes through and the returned error is nil. *)
Definition d_Set {World} (key : string) (write : Attrs -> Attrs) : H World (option error) :=
  fun s =>
    (Done None,
     mkSt (with_attrs (write (attrs (d s))) (d s)) (world s) (trace s ++ [EvSet key])).

(** [d.GetChange(key)]: the old and the new value of an attribute, on
    data no [Set] has written to (see [ResourceData]). *)
Definition d_GetChange {World A} (field : Attrs -> A) : H World (A * A) :=
  fun s => (Done (field (prior (d s)), field (attrs (d s))), s).

(** [d.HasChange(key)]: whether the two differ, on data no [Set] has
    written to. *)
Definition d_HasChange {World A} `{EqDecision A} (field : Attrs -> A) : H World bool :=
  fun s => (Done (negb (bool_decide (field (prior (d s)) = field (attrs (d s))))), s).

(** ** The connection and the client *)

(** [*ec2.EC2], with the two methods the handler calls on it.  A method
    returns its output and its error and leaves the remote side in a new
    state. *)
Record EC2 (World : Type) : Type := {
  CreateTransitGatewayRouteTable :
    ec2.CreateTransitGatewayRouteTableInput -> World ->
    (ec2.CreateTransitGatewayRouteTableOutput * option error) * World;
  DeleteTransitGatewayRouteTable :
    ec2.DeleteTransitGatewayRouteTableInput -> World -> option error * World
}.
Arguments CreateTransitGatewayRouteTable {World} _ _ _.
Arguments DeleteTransitGatewayRouteTable {World} _ _ _.

(** [*AWSClient], the [meta] argument of every handler. *)
Record AWSClient (World : Type) : Type := {
  ec2conn : EC2 World;
  IgnoreTagsConfig : option IgnoreConfig;
  partition : string;
  region : string;
  accountid : string
}.
Arguments ec2conn {World} _.
Arguments IgnoreTagsConfig {World} _.
Arguments partition {World} _.
Arguments region {World} _.
Arguments accountid {World} _.

(** ** The handler *)

Section Handler.

(** The remote side: whatever EC2 holds. *)
Context {World : Type}.

(** *** Collaborators declared in other files of the package

    They are parameters of the development.  Those that reach EC2 take
    the connection, as in Go, and leave the remote side in a new state. *)

(** [ec2DescribeTransitGatewayRouteTable(conn, id)]: the descriptor (nil
    when EC2 lists none with that identifier) and the error. *)
Variable ec2DescribeTransitGatewayRouteTable :
  EC2 World -> string -> World ->
  (option ec2.TransitGatewayRouteTable * option error) * World.

(** The two waiters: poll until the route table is available, or gone;
    the error reports a failed or timed-out wait. *)
Variable waitForEc2TransitGatewayRouteTableCreation :
  EC2 World -> string -> World -> option error * World.
Variable waitForEc2TransitGatewayRouteTableDeletion :
  EC2 World -> string -> World -> option error * World.

(** [keyvaluetags.Ec2UpdateTags(conn, id, old, new)]. *)
Variable Ec2UpdateTags :
  EC2 World -> string -> gmap string string -> gmap string string ->
  World -> option error * World.

(** [ec2TagSpecificationsFromMap(m, resourceType)] and
    [keyvaluetags.Ec2KeyValueTags(tags)]: the tag codec, between the flat
    mapping and the structures of the EC2 API. *)
Variable ec2TagSpecificationsFromMap :
  gmap string string -> string -> list ec2.TagSpecification.
Variable Ec2KeyValueTags : list ec2.Tag -> gmap string string.

(** Which tag keys are reserved by the provider. *)
Variable ProviderReservedKey : string -> bool.

(** Modelled from the spec: [KeyValueTags.IgnoreAws] of package
    [keyvaluetags], which is not among the sources, removes the
    provider-reserved tag keys. *)
Definition IgnoreAws (t : gmap string string) : gmap string string :=
  filter (fun kv => ProviderReservedKey kv.1 = false) t.

(** Modelled from the spec: [KeyValueTags.IgnoreConfig] of package
    [keyvaluetags] removes the tag keys the user configured to ignore; a
    nil configuration ignores none. *)
Definition IgnoreConfig_ (config : option IgnoreConfig) (t : gmap string string)
  : gmap string string :=
  match config with
  | None => t
  | Some c => filter (fun kv => IgnoredKey c kv.1 = false) t
  end.

(** Modelled from the spec: [KeyValueTags.Map] gives the tags as the flat
    mapping the [tags] attribute holds. *)
Definition KeyValueTags_Map (t : gmap string string) : gmap string string := t.

(** *** Read *)

Definition resourceAwsEc2TransitGatewayRouteTableRead (meta : AWSClient World)
  : H World (option error) :=
  let conn := ec2conn meta in
  let ignoreTagsConfig := IgnoreTagsConfig meta in
  id ← d_Id;
  '(transitGatewayRouteTable, err) ←
    remote (EvDescribeTransitGatewayRouteTable id)
           (ec2DescribeTransitGatewayRouteTable conn id);
  if isAWSErr err "InvalidRouteTableID.NotFound" "" then
    d_SetId "";;
    mret None
  else
    match err with
    | Some e =>
        mret (Some (fmt_Errorf "error reading EC2 Transit Gateway Route Table: " e))
    | None =>
        match transitGatewayRouteTable with
        | None =>
            d_SetId "";;
            mret None
        | Some rt =>
            if String.eqb (aws_StringValue (ec2.State rt))
                          ec2.TransitGatewayRouteTableStateDeleting
               || String.eqb (aws_StringValue (ec2.State rt))
                             ec2.TransitGatewayRouteTableStateDeleted
            then
              d_SetId "";;
              mret None
            else
              d_Set "default_association_route_table"
                    (with_default_association_route_table
                       (aws_BoolValue (ec2.DefaultAssociationRouteTable rt)));;
              d_Set "default_propagation_route_table"
                    (with_default_propagation_route_table
                       (aws_BoolValue (ec2.DefaultPropagationRouteTable rt)));;
              err ← d_Set "tags"
                      (with_tags
                         (KeyValueTags_Map
                            (IgnoreConfig_ ignoreTagsConfig
                               (IgnoreAws (Ec2KeyValueTags (ec2.Tags rt))))));
              match err with
              | Some e => mret (Some (fmt_Errorf "error setting tags: " e))
              | None =>
                  d_Set "transit_gateway_id"
                        (with_transit_gateway_id
                           (aws_StringValue (ec2.TransitGatewayId rt)));;
                  id ← d_Id;
                  let arn :=
                    arn.String
                      {| arn.Partition := partition meta;
                         arn.Service := ec2.ServiceName;
                         arn.Region := region meta;
                         arn.AccountID := accountid meta;
                         arn.Resource := "transit-gateway-route-table/" +:+ id |} in
                  d_Set "arn" (with_arn arn);;
                  mret None
              end
        end
    end.

(** *** Create *)

Definition resourceAwsEc2TransitGatewayRouteTableCreate (meta : AWSClient World)
  : H World (option error) :=
  let conn := ec2conn meta in
  transit_gateway_id ← d_Get transit_gateway_id;
  tags ← d_Get tags;
  let input :=
    {| ec2.CreateTransitGatewayId := aws_String transit_gateway_id;
       ec2.TagSpecifications :=
         ec2TagSpecificationsFromMap tags ec2.ResourceTypeTransitGatewayRouteTable |} in
  '(output, err) ←
    remote (EvCreateTransitGatewayRouteTable input)
           (CreateTransitGatewayRouteTable conn input);
  match err with
  | Some e =>
      mret (Some (fmt_Errorf "error creating EC2 Transit Gateway Route Table: " e))
  | None =>
      rt ← deref (ec2.TransitGatewayRouteTable_ output);
      d_SetId (aws_StringValue (ec2.TransitGatewayRouteTableId rt));;
      id ← d_Id;
      err ← remote (EvWaitForCreation id)
                   (waitForEc2TransitGatewayRouteTableCreation conn id);
      match err with
      | Some e =>
          id ← d_Id;
          mret (Some (fmt_Errorf
                        ("error waiting for EC2 Transit Gateway Route Table ("
                           +:+ id +:+ ") availability: ") e))
      | None => resourceAwsEc2TransitGatewayRouteTableRead meta
      end
  end.

(** *** Update *)

Definition resourceAwsEc2TransitGatewayRouteTableUpdate (meta : AWSClient World)
  : H World (option error) :=
  let conn := ec2conn meta in
  changed ← d_HasChange tags;
  if (changed : bool) then
    '(o, n) ← d_GetChange tags;
    id ← d_Id;
    err ← remote (EvUpdateTags id o n) (Ec2UpdateTags conn id o n);
    match err with
    | Some e =>
        id ← d_Id;
        mret (Some (fmt_Errorf
                      ("error updating EC2 Transit Gateway Route Table ("
                         +:+ id +:+ ") tags: ") e))
    | None => mret None
    end
  else mret None.

(** *** Delete *)

Definition resourceAwsEc2TransitGatewayRouteTableDelete (meta : AWSClient World)
  : H World (option error) :=
  let conn := ec2conn meta in
  id ← d_Id;
  let input := {| ec2.DeleteTransitGatewayRouteTableId := aws_String id |} in
  err ← remote (EvDeleteTransitGatewayRouteTable input)
               (DeleteTransitGatewayRouteTable conn input);
  if isAWSErr err "InvalidRouteTableID.NotFound" "" then mret None
  else
    match err with
    | Some e =>
        mret (Some (fmt_Errorf "error deleting EC2 Transit Gateway Route Table: " e))
    | None =>
        id ← d_Id;
        err ← remote (EvWaitForDeletion id)
                     (waitForEc2TransitGatewayRouteTableDeletion conn id);
        match err with
        | Some e =>
            id ← d_Id;
            mret (Some (fmt_Errorf
                          ("error waiting for EC2 Transit Gateway Route Table ("
                             +:+ id +:+ ") deletion: ") e))
        | None => mret None
        end
    end.

(** *** The resource and its life cycle *)

(** [schema.Resource]: the four functions a resource registers.  (Its
    [Schema] is the typing of [Attrs]; its importer passes the
    identifier through and runs none of this code.) *)
Record Resource : Type := {
  Resource_Create : AWSClient World -> H World (option error);
  Resource_Read : AWSClient World -> H World (option error);
  Resource_Update : AWSClient World -> H World (option error);
  Resource_Delete : AWSClient World -> H World (option error)
}.

Definition resourceAwsEc2TransitGatewayRouteTable : Resource :=
  {| Resource_Create := resourceAwsEc2TransitGatewayRouteTableCreate;
     Resource_Read := resourceAwsEc2TransitGatewayRouteTableRead;
     Resource_Update := resourceAwsEc2TransitGatewayRouteTableUpdate;
     Resource_Delete := resourceAwsEc2TransitGatewayRouteTableDelete |}.

Inductive Op : Type := OpCreate | OpRead | OpUpdate | OpDelete.

(** One invocation of an operation of a resource by the framework: from
    the state the operation is handed to the state it leaves. *)
Inductive invokes (r : Resource) (meta : AWSClient World)
  : Op -> St World -> St World -> Prop :=
| invokes_Create s : invokes r meta OpCreate s (Resource_Create r meta s).2
| invokes_Read s : invokes r meta OpRead s (Resource_Read r meta s).2
| invokes_Update s : invokes r meta OpUpdate s (Resource_Update r meta s).2
| invokes_Delete s : invokes r meta OpDelete s (Resource_Delete r meta s).2.

(** The request Create sends for a given stored state. *)
Definition createInput (rd : ResourceData) : ec2.CreateTransitGatewayRouteTableInput :=
  {| ec2.CreateTransitGatewayId := aws_String (transit_gateway_id (attrs rd));
     ec2.TagSpecifications :=
       ec2TagSpecificationsFromMap (tags (attrs rd))
                                   ec2.ResourceTypeTransitGatewayRouteTable |}.

(** The request Delete sends for a given stored state. *)
Definition deleteInput (rd : ResourceData) : ec2.DeleteTransitGatewayRouteTableInput :=
  {| ec2.DeleteTransitGatewayRouteTableId := aws_String (Id rd) |}.

(** The describe result says the route table is gone: the not-found
    error code, or no error and a nil descriptor, or no error and a
    descriptor in state "deleting" or "deleted". *)
Definition reportsGone (desc : option ec2.TransitGatewayRouteTable) (err : option error)
  : Prop :=
  isAWSErr err "InvalidRouteTableID.NotFound" "" = true
  \/ (err = None /\ desc = None)
  \/ (err = None /\
      exists rt, desc = Some rt /\
                 (aws_StringValue (ec2.State rt) = "deleting"
                  \/ aws_StringValue (ec2.State rt) = "deleted")).

(** The describe result shows a live route table. *)
Definition reportsLive (desc : option ec2.TransitGatewayRouteTable) (err : option error)
  (rt : ec2.TransitGatewayRouteTable) : Prop :=
  err = None /\ desc = Some rt
  /\ aws_StringValue (ec2.State rt) <> "deleting"
  /\ aws_StringValue (ec2.State rt) <> "deleted".

(** Whether the user's configuration ignores a tag key. *)
Definition ignoredByConfig (config : option IgnoreConfig) (k : string) : bool :=
  match config with
  | None => false
  | Some c => IgnoredKey c k
  end.

(** *** States a run passes through *)

(** After a remote call: the remote side moved on, the call is on
    record. *)
Definition called (e : Event) (w : World) (s : St World) : St World :=
  mkSt (d s) w (trace s ++ [e]).

(** After [d.SetId(v)]. *)
Definition idSet (v : string) (s : St World) : St World :=
  mkSt (with_Id v (d s)) (world s) (trace s ++ [EvSetId v]).

(** The attributes Read stores for a live descriptor. *)
Definition populated (meta : AWSClient World) (rt : ec2.TransitGatewayRouteTable)
  (id : string) : Attrs :=
  {| arn_ :=
       arn.String
         {| arn.Partition := partition meta;
            arn.Service := ec2.ServiceName;
            arn.Region := region meta;
            arn.AccountID := accountid meta;
            arn.Resource := "transit-gateway-route-table/" +:+ id |};
     default_association_route_table :=
       aws_BoolValue (ec2.DefaultAssociationRouteTable rt);
     default_propagation_route_table :=
       aws_BoolValue (ec2.DefaultPropagationRouteTable rt);
     tags :=
       KeyValueTags_Map
         (IgnoreConfig_ (IgnoreTagsConfig meta)
            (IgnoreAws (Ec2KeyValueTags (ec2.Tags rt))));
     transit_gateway_id := aws_StringValue (ec2.TransitGatewayId rt) |}.

(** The five attribute writes of Read, in order. *)
Definition readWrites : list Event :=
  [EvSet "default_association_route_table";
   EvSet "default_propagation_route_table";
   EvSet "tags";
   EvSet "transit_gateway_id";
   EvSet "arn"].

(** *** Runs of several invocations *)

(** A run: the operations the framework invokes one after the other,
    each on the state the one before left. *)
Inductive runs (r : Resource) (meta : AWSClient World)
  : list Op -> St World -> St World -> Prop :=
| runs_nil s : runs r meta [] s s
| runs_cons op ops s s1 s2 :
    invokes r meta op s s1 ->
    runs r meta ops s1 s2 ->
    runs r meta (op :: ops) s s2.

(** The events a handler added to the record, given that the record only
    grows: what is left of the new record after the old one. *)
Definition added (before after : St World) : list Event :=
  drop (length (trace before)) (trace after).

End Handler.

(** ** A simulated EC2

    A small remote side to run the handler against: EC2 as a table of
    route tables by identifier.  It hands out one identifier, reports
    unknown identifiers with the not-found code, and its waiters return
    at once.  The worked examples, and the runs that show a failure mode,
    use it with one collaborator replaced. *)
Module Sim.

Definition World : Type := gmap string ec2.TransitGatewayRouteTable.

Definition notFound : error :=
  AwsErr "InvalidRouteTableID.NotFound" "The transitGatewayRouteTable ID does not exist".

Definition mkTag (kv : string * string) : ec2.Tag :=
  {| ec2.Key := Some kv.1; ec2.Value := Some kv.2 |}.

(** The tag codec of the simulation. *)
Definition ec2TagSpecificationsFromMap (m : gmap string string) (t : string)
  : list ec2.TagSpecification :=
  [ {| ec2.ResourceType := Some t; ec2.SpecTags := mkTag <$> map_to_list m |} ].

Definition Ec2KeyValueTags (l : list ec2.Tag) : gmap string string :=
  foldl (fun m t => <[aws_StringValue (ec2.Key t) := aws_StringValue (ec2.Value t)]> m) ∅ l.

Definition ProviderReservedKey (k : string) : bool := String.prefix "aws:" k.

Definition newId : string := "tgw-rtb-abc".

Definition conn : EC2 World :=
  {| CreateTransitGatewayRouteTable := fun input w =>
       let rt :=
         {| ec2.DefaultAssociationRouteTable := Some false;
            ec2.DefaultPropagationRouteTable := Some false;
            ec2.State := Some ec2.TransitGatewayRouteTableStateAvailable;
            ec2.Tags := concat (ec2.SpecTags <$> ec2.TagSpecifications input);
            ec2.TransitGatewayId := ec2.CreateTransitGatewayId input;
            ec2.TransitGatewayRouteTableId := Some newId |} in
       (({| ec2.TransitGatewayRouteTable_ := Some rt |}, None), <[newId := rt]> w);
     DeleteTransitGatewayRouteTable := fun input w =>
       let id := aws_StringValue (ec2.DeleteTransitGatewayRouteTableId input) in
       match w !! id with
       | Some _ => (None, delete id w)
       | None => (Some notFound, w)
       end |}.

Definition describe (c : EC2 World) (id : string) (w : World)
  : (option ec2.TransitGatewayRouteTable * option error) * World :=
  match w !! id with
  | Some rt => ((Some rt, None), w)
  | None => ((None, Some notFound), w)
  end.

Definition waitOk (c : EC2 World) (id : string) (w : World) : option error * World :=
  (None, w).

Definition updateTags (c : EC2 World) (id : string) (o n : gmap string string) (w : World)
  : option error * World :=
  match w !! id with
  | Some rt =>
      (None,
       <[id := {| ec2.DefaultAssociationRouteTable := ec2.DefaultAssociationRouteTable rt;
                  ec2.DefaultPropagationRouteTable := ec2.DefaultPropagationRouteTable rt;
                  ec2.State := ec2.State rt;
                  ec2.Tags := mkTag <$> map_to_list n;
                  ec2.TransitGatewayId := ec2.TransitGatewayId rt;
                  ec2.TransitGatewayRouteTableId := ec2.TransitGatewayRouteTableId rt |}]> w)
  | None => (Some notFound, w)
  end.

(** Failure modes. *)
Definition connCreateFails : EC2 World :=
  {| CreateTransitGatewayRouteTable := fun input w =>
       (({| ec2.TransitGatewayRouteTable_ := None |},
         Some (AwsErr "InvalidTransitGatewayID.NotFound" "no such transit gateway")), w);
     DeleteTransitGatewayRouteTable := DeleteTransitGatewayRouteTable conn |}.

Definition connDeleteDenied : EC2 World :=
  {| CreateTransitGatewayRouteTable := CreateTransitGatewayRouteTable conn;
     DeleteTransitGatewayRouteTable := fun input w =>
       (Some (AwsErr "UnauthorizedOperation" "not authorized"), w) |}.

Definition waitTimesOut (c : EC2 World) (id : string) (w : World) : option error * World :=
  (Some (ErrorString "timeout while waiting for state"), w).

Definition describeDenied (c : EC2 World) (id : string) (w : World)
  : (option ec2.TransitGatewayRouteTable * option error) * World :=
  ((None, Some (AwsErr "UnauthorizedOperation" "not authorized")), w).

(** A describe that does not see the new route table yet. *)
Definition describeStale (c : EC2 World) (id : string) (w : World)
  : (option ec2.TransitGatewayRouteTable * option error) * World :=
  ((None, Some notFound), w).

Definition updateTagsFails (c : EC2 World) (id : string) (o n : gmap string string) (w : World)
  : option error * World :=
  (Some (AwsErr "RequestLimitExceeded" "slow down"), w).

Definition client (c : EC2 World) : AWSClient World :=
  {| ec2conn := c;
     IgnoreTagsConfig := Some {| IgnoredKey := String.eqb "owner" |};
     partition := "aws";
     region := "eu-west-1";
     accountid := "123456789012" |}.

Definition noAttrs : Attrs :=
  {| arn_ := "";
     default_association_route_table := false;
     default_propagation_route_table := false;
     tags := ∅;
     transit_gateway_id := "" |}.

(** The configuration of the scenario: owning transit gateway [tgw-123],
    one tag. *)
Definition planned : Attrs :=
  {| arn_ := "";
     default_association_route_table := false;
     default_propagation_route_table := false;
     tags := {[ "env" := "prod" ]};
     transit_gateway_id := "tgw-123" |}.

(** A new resource, before Create. *)
Definition fresh : St World :=
  mkSt {| Id := ""; prior := noAttrs; attrs := planned |} ∅ [].

(** A resource in the stored state whose route table EC2 does not hold. *)
Definition orphan : St World :=
  mkSt {| Id := "tgw-rtb-abc"; prior := planned; attrs := planned |} ∅ [].

Definition Read :=
  resourceAwsEc2TransitGatewayRouteTableRead describe Ec2KeyValueTags ProviderReservedKey.
Definition Create :=
  resourceAwsEc2TransitGatewayRouteTableCreate
    describe waitOk ec2TagSpecificationsFromMap Ec2KeyValueTags ProviderReservedKey.
Definition Update := resourceAwsEc2TransitGatewayRouteTableUpdate updateTags.
Definition Delete := resourceAwsEc2TransitGatewayRouteTableDelete waitOk.

Definition resource : Resource :=
  resourceAwsEc2TransitGatewayRouteTable
    describe waitOk waitOk updateTags
    ec2TagSpecificationsFromMap Ec2KeyValueTags ProviderReservedKey.

(** The handler with one collaborator failing. *)
Definition ReadDenied :=
  resourceAwsEc2TransitGatewayRouteTableRead
    describeDenied Ec2KeyValueTags ProviderReservedKey.
Definition CreateWaitTimesOut :=
  resourceAwsEc2TransitGatewayRouteTableCreate
    describe waitTimesOut ec2TagSpecificationsFromMap Ec2KeyValueTags ProviderReservedKey.
Definition CreateStale :=
  resourceAwsEc2TransitGatewayRouteTableCreate
    describeStale waitOk ec2TagSpecificationsFromMap Ec2KeyValueTags ProviderReservedKey.
Definition UpdateFails := resourceAwsEc2TransitGatewayRouteTableUpdate updateTagsFails.
Definition DeleteWaitTimesOut := resourceAwsEc2TransitGatewayRouteTableDelete waitTimesOut.

(** A route table as EC2 holds it, with a provider-reserved tag and a tag
    the user configured to ignore next to the user's own. *)
Definition remoteTable : ec2.TransitGatewayRouteTable :=
  {| ec2.DefaultAssociationRouteTable := Some true;
     ec2.DefaultPropagationRouteTable := None;
     ec2.State := Some "available";
     ec2.Tags := mkTag <$> [("env", "prod"); ("aws:createdBy", "stack"); ("owner", "ops")];
     ec2.TransitGatewayId := Some "tgw-123";
     ec2.TransitGatewayRouteTableId := Some "tgw-rtb-abc" |}.

(** A resource in the stored state whose route table EC2 holds. *)
Definition tracked : St World :=
  mkSt {| Id := "tgw-rtb-abc"; prior := planned; attrs := planned |}
       {[ "tgw-rtb-abc" := remoteTable ]} [].

(** The same resource with a change of tags planned. *)
Definition retagged : St World :=
  mkSt {| Id := "tgw-rtb-abc"; prior := planned; attrs := with_tags ∅ planned |}
       {[ "tgw-rtb-abc" := remoteTable ]} [].

(** A resource just imported: the identifier and nothing else. *)
Definition imported : St World :=
  mkSt {| Id := "tgw-rtb-abc"; prior := noAttrs; attrs := noAttrs |}
       {[ "tgw-rtb-abc" := remoteTable ]} [].

(** An EC2 whose creation call returns neither an error nor a route
    table. *)
Definition connNilResponse : EC2 World :=
  {| CreateTransitGatewayRouteTable := fun input w =>
       (({| ec2.TransitGatewayRouteTable_ := None |}, None), w);
     DeleteTransitGatewayRouteTable := DeleteTransitGatewayRouteTable conn |}.

(** The tracked resource after Read, Update and Delete in a row; the
    retagged one after Update and Delete. *)
Definition afterRun : St World :=
  (Delete (client conn) (Update (client conn) (Read (client conn) tracked).2).2).2.
Definition afterRetag : St World :=
  (Delete (client conn) (Update (client conn) retagged).2).2.

(** The new resource after Create, and after Create then Delete. *)
Definition afterCreate : St World := (Create (client conn) fresh).2.
Definition afterDelete : St World := (Delete (client conn) afterCreate).2.

End Sim.

(** * Properties *)

Section Properties.

Context {World : Type}.
Variable ec2DescribeTransitGatewayRouteTable :
  EC2 World -> string -> World ->
  (option ec2.TransitGatewayRouteTable * option error) * World.
Variable waitForEc2TransitGatewayRouteTableCreation :
  EC2 World -> string -> World -> option error * World.
Variable waitForEc2TransitGatewayRouteTableDeletion :
  EC2 World -> string -> World -> option error * World.
Variable Ec2UpdateTags :
  EC2 World -> string -> gmap string string -> gmap string string ->
  World -> option error * World.
Variable ec2TagSpecificationsFromMap :
  gmap string string -> string -> list ec2.TagSpecification.
Variable Ec2KeyValueTags : list ec2.Tag -> gmap string string.
Variable ProviderReservedKey : string -> bool.

#[local] Abbreviation Read :=
  (resourceAwsEc2TransitGatewayRouteTableRead
     ec2DescribeTransitGatewayRouteTable Ec2KeyValueTags ProviderReservedKey).
#[local] Abbreviation Create :=
  (resourceAwsEc2TransitGatewayRouteTableCreate
     ec2DescribeTransitGatewayRouteTable waitForEc2TransitGatewayRouteTableCreation
     ec2TagSpecificationsFromMap Ec2KeyValueTags ProviderReservedKey).
#[local] Abbreviation Update :=
  (resourceAwsEc2TransitGatewayRouteTableUpdate Ec2UpdateTags).
#[local] Abbreviation Delete :=
  (resourceAwsEc2TransitGatewayRouteTableDelete
     waitForEc2TransitGatewayRouteTableDeletion).
#[local] Abbreviation describe := ec2DescribeTransitGatewayRouteTable.
#[local] Abbreviation theResource :=
  (resourceAwsEc2TransitGatewayRouteTable
     ec2DescribeTransitGatewayRouteTable
     waitForEc2TransitGatewayRouteTableCreation
     waitForEc2TransitGatewayRouteTableDeletion
     Ec2UpdateTags ec2TagSpecificationsFromMap Ec2KeyValueTags
     ProviderReservedKey).

(** What the describe call of the Read that Create delegates to returns:
    it is made for the identifier of the creation response, on the
    remote side as the waiter left it. *)
#[local] Abbreviation delegatedDescribe meta rt w1 :=
  (ec2DescribeTransitGatewayRouteTable
     (ec2conn meta) (aws_StringValue (ec2.TransitGatewayRouteTableId rt))
     (waitForEc2TransitGatewayRouteTableCreation
        (ec2conn meta) (aws_StringValue (ec2.TransitGatewayRouteTableId rt)) w1).2).1.

(** The remote calls of the handler on a given state, and their events. *)
#[local] Abbreviation createCall meta s :=
  (CreateTransitGatewayRouteTable (ec2conn meta)
     (createInput ec2TagSpecificationsFromMap (d s)) (world s)).
#[local] Abbreviation evCreate s :=
  (EvCreateTransitGatewayRouteTable (createInput ec2TagSpecificationsFromMap (d s))).

(** The state in which Create calls the waiter: the creation call made,
    the identifier of the response recorded. *)
#[local] Abbreviation created s w id := (idSet id (called (evCreate s) w s)).

#[local] Abbreviation updateCall meta s :=
  (Ec2UpdateTags (ec2conn meta) (Id (d s))
     (tags (prior (d s))) (tags (attrs (d s))) (world s)).
#[local] Abbreviation evUpdate s :=
  (EvUpdateTags (Id (d s)) (tags (prior (d s))) (tags (attrs (d s)))).

#[local] Abbreviation deleteCall meta s :=
  (DeleteTransitGatewayRouteTable (ec2conn meta) (deleteInput (d s)) (world s)).
#[local] Abbreviation evDelete s :=
  (EvDeleteTransitGatewayRouteTable (deleteInput (d s))).

#[local] Arguments isAWSErr : simpl never.
#[local] Arguments String.eqb : simpl never.

(** Run the monad: expose the sequence of calls and writes. *)
Ltac exec :=
  unfold mbind, mret, H_bind, H_ret, remote, deref, panic,
    d_Id, d_SetId, d_Get, d_Set, d_GetChange, d_HasChange; simpl.

(** ** The message filter of [isAWSErr] *)

Lemma strings_Contains_empty (s : string) : strings_Contains s "" = true.
Proof. destruct s; reflexivity. Qed.

Lemma isAWSErr_code (err : option error) (code : string) :
  isAWSErr err code "" = true <-> exists m, err = Some (AwsErr code m).
Proof.
  split.
  - unfold isAWSErr. destruct err as [[c m | t] |]; try discriminate.
    rewrite strings_Contains_empty, andb_true_r.
    intros Hc. apply String.eqb_eq in Hc. subst c. eauto.
  - intros [m ->]. unfold isAWSErr.
    now rewrite String.eqb_refl, strings_Contains_empty.
Qed.

Lemma isAWSErr_nil (code message : string) : isAWSErr None code message = false.
Proof. reflexivity. Qed.

(** ** Read, case by case *)

Lemma Read_not_found meta s desc err w :
  describe (ec2conn meta) (Id (d s)) (world s) = ((desc, err), w) ->
  isAWSErr err "InvalidRouteTableID.NotFound" "" = true ->
  Read meta s =
    (Done None, idSet "" (called (EvDescribeTransitGatewayRouteTable (Id (d s))) w s)).
Proof.
  intros Hd Hnf. unfold resourceAwsEc2TransitGatewayRouteTableRead. exec.
  rewrite Hd. simpl. rewrite Hnf. reflexivity.
Qed.

Lemma Read_other_error meta s desc e w :
  describe (ec2conn meta) (Id (d s)) (world s) = ((desc, Some e), w) ->
  isAWSErr (Some e) "InvalidRouteTableID.NotFound" "" = false ->
  Read meta s =
    (Done (Some (fmt_Errorf "error reading EC2 Transit Gateway Route Table: " e)),
     called (EvDescribeTransitGatewayRouteTable (Id (d s))) w s).
Proof.
  intros Hd Hnf. unfold resourceAwsEc2TransitGatewayRouteTableRead. exec.
  rewrite Hd. simpl. rewrite Hnf. reflexivity.
Qed.

Lemma Read_nil meta s w :
  describe (ec2conn meta) (Id (d s)) (world s) = ((None, None), w) ->
  Read meta s =
    (Done None, idSet "" (called (EvDescribeTransitGatewayRouteTable (Id (d s))) w s)).
Proof.
  intros Hd. unfold resourceAwsEc2TransitGatewayRouteTableRead. exec.
  rewrite Hd. reflexivity.
Qed.

Lemma Read_deleted meta s rt w :
  describe (ec2conn meta) (Id (d s)) (world s) = ((Some rt, None), w) ->
  aws_StringValue (ec2.State rt) = "deleting"
  \/ aws_StringValue (ec2.State rt) = "deleted" ->
  Read meta s =
    (Done None, idSet "" (called (EvDescribeTransitGatewayRouteTable (Id (d s))) w s)).
Proof.
  intros Hd Hst. unfold resourceAwsEc2TransitGatewayRouteTableRead. exec.
  rewrite Hd. simpl.
  destruct Hst as [-> | ->]; reflexivity.
Qed.

Lemma Read_live meta s rt w :
  describe (ec2conn meta) (Id (d s)) (world s) = ((Some rt, None), w) ->
  aws_StringValue (ec2.State rt) <> "deleting" ->
  aws_StringValue (ec2.State rt) <> "deleted" ->
  Read meta s =
    (Done None,
     mkSt {| Id := Id (d s);
             prior := prior (d s);
             attrs := populated Ec2KeyValueTags ProviderReservedKey
                                meta rt (Id (d s)) |}
          w
          (trace s ++ EvDescribeTransitGatewayRouteTable (Id (d s)) :: readWrites)).
Proof.
  intros Hd Hn1 Hn2. unfold resourceAwsEc2TransitGatewayRouteTableRead. exec.
  rewrite Hd. simpl.
  apply String.eqb_neq in Hn1, Hn2.
  unfold ec2.TransitGatewayRouteTableStateDeleting,
    ec2.TransitGatewayRouteTableStateDeleted.
  rewrite Hn1, Hn2. simpl.
  unfold populated, readWrites, with_attrs. simpl.
  repeat rewrite <- app_assoc. reflexivity.
Qed.

Lemma Read_gone meta s desc err w :
  describe (ec2conn meta) (Id (d s)) (world s) = ((desc, err), w) ->
  reportsGone desc err ->
  Read meta s =
    (Done None, idSet "" (called (EvDescribeTransitGatewayRouteTable (Id (d s))) w s)).
Proof.
  intros Hd [Hnf | [[-> ->] | [-> [rt [-> Hst]]]]].
  - exact (Read_not_found _ _ _ _ _ Hd Hnf).
  - exact (Read_nil _ _ _ Hd).
  - exact (Read_deleted _ _ _ _ Hd Hst).
Qed.

(** ** Create, case by case *)

Lemma Create_call_fails meta s out e w :
  createCall meta s = ((out, Some e), w) ->
  Create meta s =
    (Done (Some (fmt_Errorf "error creating EC2 Transit Gateway Route Table: " e)),
     called (evCreate s) w s).
Proof.
  intros Hc. unfold resourceAwsEc2TransitGatewayRouteTableCreate. exec.
  unfold createInput in Hc. rewrite Hc. reflexivity.
Qed.

Lemma Create_nil_route_table meta s out w :
  createCall meta s = ((out, None), w) ->
  ec2.TransitGatewayRouteTable_ out = None ->
  exists reason, Create meta s = (Panic reason, called (evCreate s) w s).
Proof.
  intros Hc Hrt. unfold resourceAwsEc2TransitGatewayRouteTableCreate. exec.
  unfold createInput in Hc. rewrite Hc. simpl. rewrite Hrt. simpl. eauto.
Qed.

Lemma Create_wait_fails meta s out rt e w1 w2 :
  createCall meta s = ((out, None), w1) ->
  ec2.TransitGatewayRouteTable_ out = Some rt ->
  waitForEc2TransitGatewayRouteTableCreation
    (ec2conn meta) (aws_StringValue (ec2.TransitGatewayRouteTableId rt)) w1
  = (Some e, w2) ->
  Create meta s =
    (Done (Some (fmt_Errorf
                   ("error waiting for EC2 Transit Gateway Route Table ("
                      +:+ aws_StringValue (ec2.TransitGatewayRouteTableId rt)
                      +:+ ") availability: ") e)),
     called (EvWaitForCreation (aws_StringValue (ec2.TransitGatewayRouteTableId rt))) w2
            (created s w1 (aws_StringValue (ec2.TransitGatewayRouteTableId rt)))).
Proof.
  intros Hc Hrt Hw. unfold resourceAwsEc2TransitGatewayRouteTableCreate. exec.
  unfold createInput in Hc. rewrite Hc. simpl. rewrite Hrt. simpl.
  rewrite Hw. reflexivity.
Qed.

Lemma Create_delegates meta s out rt w1 w2 :
  createCall meta s = ((out, None), w1) ->
  ec2.TransitGatewayRouteTable_ out = Some rt ->
  waitForEc2TransitGatewayRouteTableCreation
    (ec2conn meta) (aws_StringValue (ec2.TransitGatewayRouteTableId rt)) w1
  = (None, w2) ->
  Create meta s =
    Read meta
      (called (EvWaitForCreation (aws_StringValue (ec2.TransitGatewayRouteTableId rt))) w2
              (created s w1 (aws_StringValue (ec2.TransitGatewayRouteTableId rt)))).
Proof.
  intros Hc Hrt Hw. unfold resourceAwsEc2TransitGatewayRouteTableCreate. exec.
  unfold createInput in Hc. rewrite Hc. simpl. rewrite Hrt. simpl.
  rewrite Hw. reflexivity.
Qed.

(** ** What Read does to the identifier *)

Lemma Read_identifier meta s :
  Id (d (Read meta s).2) = Id (d s) \/ Id (d (Read meta s).2) = "".
Proof.
  destruct (describe (ec2conn meta) (Id (d s)) (world s)) as [[desc err] w] eqn:Hd.
  destruct (isAWSErr err "InvalidRouteTableID.NotFound" "") eqn:Hnf.
  { rewrite (Read_not_found _ _ _ _ _ Hd Hnf). now right. }
  destruct err as [e |].
  { rewrite (Read_other_error _ _ _ _ _ Hd Hnf). now left. }
  destruct desc as [rt |].
  2: { rewrite (Read_nil _ _ _ Hd). now right. }
  destruct (string_dec (aws_StringValue (ec2.State rt)) "deleting") as [H1 | H1].
  { rewrite (Read_deleted _ _ _ _ Hd (or_introl H1)). now right. }
  destruct (string_dec (aws_StringValue (ec2.State rt)) "deleted") as [H2 | H2].
  { rewrite (Read_deleted _ _ _ _ Hd (or_intror H2)). now right. }
  rewrite (Read_live _ _ _ _ Hd H1 H2). now left.
Qed.

Lemma Read_never_panics meta s : exists r, (Read meta s).1 = Done r.
Proof.
  destruct (describe (ec2conn meta) (Id (d s)) (world s)) as [[desc err] w] eqn:Hd.
  destruct (isAWSErr err "InvalidRouteTableID.NotFound" "") eqn:Hnf.
  { rewrite (Read_not_found _ _ _ _ _ Hd Hnf). eauto. }
  destruct err as [e |].
  { rewrite (Read_other_error _ _ _ _ _ Hd Hnf). eauto. }
  destruct desc as [rt |].
  2: { rewrite (Read_nil _ _ _ Hd). eauto. }
  destruct (string_dec (aws_StringValue (ec2.State rt)) "deleting") as [H1 | H1].
  { rewrite (Read_deleted _ _ _ _ Hd (or_introl H1)). eauto. }
  destruct (string_dec (aws_StringValue (ec2.State rt)) "deleted") as [H2 | H2].
  { rewrite (Read_deleted _ _ _ _ Hd (or_intror H2)). eauto. }
  rewrite (Read_live _ _ _ _ Hd H1 H2). eauto.
Qed.

(** ** Update and Delete, case by case *)

Lemma Update_unchanged meta s :
  tags (prior (d s)) = tags (attrs (d s)) ->
  Update meta s = (Done None, s).
Proof.
  intros Heq. unfold resourceAwsEc2TransitGatewayRouteTableUpdate. exec.
  rewrite bool_decide_eq_true_2 by exact Heq. reflexivity.
Qed.

Lemma Update_changed meta s :
  tags (prior (d s)) <> tags (attrs (d s)) ->
  Update meta s =
    (Done (match (updateCall meta s).1 with
           | Some e =>
               Some (fmt_Errorf
                       ("error updating EC2 Transit Gateway Route Table ("
                          +:+ Id (d s) +:+ ") tags: ") e)
           | None => None
           end),
     called (evUpdate s) (updateCall meta s).2 s).
Proof.
  intros Hne. unfold resourceAwsEc2TransitGatewayRouteTableUpdate. exec.
  rewrite bool_decide_eq_false_2 by exact Hne. simpl.
  destruct (Ec2UpdateTags _ _ _ _ _) as [[e |] w]; reflexivity.
Qed.

Lemma Delete_not_found meta s err w :
  deleteCall meta s = (err, w) ->
  isAWSErr err "InvalidRouteTableID.NotFound" "" = true ->
  Delete meta s = (Done None, called (evDelete s) w s).
Proof.
  intros Hc Hnf. unfold resourceAwsEc2TransitGatewayRouteTableDelete. exec.
  unfold deleteInput in Hc. rewrite Hc. rewrite Hnf. reflexivity.
Qed.

Lemma Delete_call_fails meta s e w :
  deleteCall meta s = (Some e, w) ->
  isAWSErr (Some e) "InvalidRouteTableID.NotFound" "" = false ->
  Delete meta s =
    (Done (Some (fmt_Errorf "error deleting EC2 Transit Gateway Route Table: " e)),
     called (evDelete s) w s).
Proof.
  intros Hc Hnf. unfold resourceAwsEc2TransitGatewayRouteTableDelete. exec.
  unfold deleteInput in Hc. rewrite Hc. rewrite Hnf. reflexivity.
Qed.

Lemma Delete_waits meta s w1 err2 w2 :
  deleteCall meta s = (None, w1) ->
  waitForEc2TransitGatewayRouteTableDeletion (ec2conn meta) (Id (d s)) w1 = (err2, w2) ->
  Delete meta s =
    (Done (match err2 with
           | Some e =>
               Some (fmt_Errorf
                       ("error waiting for EC2 Transit Gateway Route Table ("
                          +:+ Id (d s) +:+ ") deletion: ") e)
           | None => None
           end),
     called (EvWaitForDeletion (Id (d s))) w2 (called (evDelete s) w1 s)).
Proof.
  intros Hc Hw. unfold resourceAwsEc2TransitGatewayRouteTableDelete. exec.
  unfold deleteInput in Hc. rewrite Hc. simpl. rewrite Hw.
  destruct err2; reflexivity.
Qed.

(** ** The tag filter *)

Lemma lookup_filter_key (f : string -> bool) (m : gmap string string) (k : string) :
  filter (fun kv => f kv.1 = false) m !! k = if f k then None else m !! k.
Proof.
  rewrite map_lookup_filter.
  destruct (m !! k) as [v |]; simpl.
  - destruct (f k) eqn:Hf; case_guard; simpl in *; congruence.
  - now destruct (f k).
Qed.

Lemma filtered_tags_lookup (config : option IgnoreConfig) (m : gmap string string)
  (k : string) :
  KeyValueTags_Map (IgnoreConfig_ config (IgnoreAws ProviderReservedKey m)) !! k
  = if ProviderReservedKey k || ignoredByConfig config k then None else m !! k.
Proof.
  unfold KeyValueTags_Map, IgnoreConfig_, IgnoreAws, ignoredByConfig.
  destruct config as [c |].
  - rewrite !lookup_filter_key.
    destruct (ProviderReservedKey k), (IgnoredKey c k); reflexivity.
  - rewrite lookup_filter_key, orb_false_r. reflexivity.
Qed.

(** ** The claims *)

(** C1.  Read's outcome is decided by the describe result.  When the
    describe call fails with the not-found code, or returns no error and
    a nil descriptor, or returns a descriptor in state "deleting" or
    "deleted", Read clears the identifier and returns nil.  When it fails
    with any other error [e], Read returns the error
    "error reading EC2 Transit Gateway Route Table: " followed by the
    text of [e], and the stored state, the identifier with it, is as it
    was: the only event is the describe call. *)
Theorem Read_outcome_decided_by_describe meta s desc err w :
  describe (ec2conn meta) (Id (d s)) (world s) = ((desc, err), w) ->
  (reportsGone desc err ->
   (Read meta s).1 = Done None /\ Id (d (Read meta s).2) = "")
  /\ (forall e,
        err = Some e ->
        isAWSErr err "InvalidRouteTableID.NotFound" "" = false ->
        (Read meta s).1
        = Done (Some (fmt_Errorf "error reading EC2 Transit Gateway Route Table: " e))
        /\ d (Read meta s).2 = d s
        /\ trace (Read meta s).2
           = trace s ++ [EvDescribeTransitGatewayRouteTable (Id (d s))]).
Proof.
  intros Hd. split.
  - intros [Hnf | [[-> ->] | [-> [rt [-> Hst]]]]].
    + now rewrite (Read_not_found _ _ _ _ _ Hd Hnf).
    + now rewrite (Read_nil _ _ _ Hd).
    + now rewrite (Read_deleted _ _ _ _ Hd Hst).
  - intros e -> Hnf. now rewrite (Read_other_error _ _ _ _ _ Hd Hnf).
Qed.

(** C2.  Delete is idempotent: when the deletion call fails with the
    not-found code, as it does for a route table that is already gone,
    Delete returns nil.  It does so right after the call, without
    waiting and without touching the stored state. *)
Theorem Delete_not_found_returns_success meta s err w :
  deleteCall meta s = (err, w) ->
  isAWSErr err "InvalidRouteTableID.NotFound" "" = true ->
  (Delete meta s).1 = Done None
  /\ d (Delete meta s).2 = d s
  /\ trace (Delete meta s).2 = trace s ++ [evDelete s].
Proof.
  intros Hc Hnf. now rewrite (Delete_not_found _ _ _ _ Hc Hnf).
Qed.

(** C3.  When the creation call returns an error [e], Create returns the
    error "error creating EC2 Transit Gateway Route Table: " followed by
    the text of [e] and records no identifier: the stored state is as it
    was, an empty identifier is still empty, and no setter ran, the
    creation call being the only event. *)
Theorem Create_call_error_records_no_identifier meta s out e w :
  createCall meta s = ((out, Some e), w) ->
  (Create meta s).1
  = Done (Some (fmt_Errorf "error creating EC2 Transit Gateway Route Table: " e))
  /\ d (Create meta s).2 = d s
  /\ (Id (d s) = "" -> Id (d (Create meta s).2) = "")
  /\ trace (Create meta s).2 = trace s ++ [evCreate s].
Proof.
  intros Hc. rewrite (Create_call_fails _ _ _ _ _ Hc). simpl. tauto.
Qed.

(** C4.  When the creation call succeeds, its response carrying the new
    route table, and the wait for availability then fails or times out
    with error [e], Create returns the error "error waiting for EC2
    Transit Gateway Route Table (<id>) availability: " followed by the
    text of [e], and the identifier of the creation response stays
    recorded.  Read is not reached. *)
Theorem Create_wait_failure_keeps_identifier meta s out rt e w1 w2 :
  createCall meta s = ((out, None), w1) ->
  ec2.TransitGatewayRouteTable_ out = Some rt ->
  waitForEc2TransitGatewayRouteTableCreation
    (ec2conn meta) (aws_StringValue (ec2.TransitGatewayRouteTableId rt)) w1
  = (Some e, w2) ->
  (Create meta s).1
  = Done (Some (fmt_Errorf
                  ("error waiting for EC2 Transit Gateway Route Table ("
                     +:+ aws_StringValue (ec2.TransitGatewayRouteTableId rt)
                     +:+ ") availability: ") e))
  /\ Id (d (Create meta s).2) = aws_StringValue (ec2.TransitGatewayRouteTableId rt)
  /\ trace (Create meta s).2
     = trace s ++ [evCreate s;
                   EvSetId (aws_StringValue (ec2.TransitGatewayRouteTableId rt));
                   EvWaitForCreation (aws_StringValue (ec2.TransitGatewayRouteTableId rt))].
Proof.
  intros Hc Hrt Hw. rewrite (Create_wait_fails _ _ _ _ _ _ _ Hc Hrt Hw). simpl.
  repeat split. now rewrite <- !app_assoc.
Qed.

(** C5.  When the tags attribute is the same in the old and in the new
    snapshot, Update returns nil and does nothing: the state it leaves,
    the record of calls and the remote side included, is the state it
    was handed, so no remote call was made. *)
Theorem Update_without_tag_change_makes_no_call meta s :
  tags (prior (d s)) = tags (attrs (d s)) ->
  (Update meta s).1 = Done None
  /\ (Update meta s).2 = s
  /\ filter (fun e => is_remote_call e = true) (trace (Update meta s).2)
     = filter (fun e => is_remote_call e = true) (trace s).
Proof.
  intros Heq. now rewrite (Update_unchanged _ _ Heq).
Qed.

(** C6.  When describe succeeds with a descriptor that is neither
    "deleting" nor "deleted", Read returns nil, keeps the identifier, and
    stores: the two boolean flags of the descriptor; as tags, those of
    the descriptor without the provider-reserved keys and without the
    keys the user configured to ignore; the transit gateway identifier of
    the descriptor; and the resource locator
    arn:<partition>:ec2:<region>:<account>:transit-gateway-route-table/<identifier>
    built from the client configuration. *)
Theorem Read_populates_from_live_descriptor meta s desc err rt w :
  describe (ec2conn meta) (Id (d s)) (world s) = ((desc, err), w) ->
  reportsLive desc err rt ->
  (Read meta s).1 = Done None
  /\ Id (d (Read meta s).2) = Id (d s)
  /\ default_association_route_table (attrs (d (Read meta s).2))
     = aws_BoolValue (ec2.DefaultAssociationRouteTable rt)
  /\ default_propagation_route_table (attrs (d (Read meta s).2))
     = aws_BoolValue (ec2.DefaultPropagationRouteTable rt)
  /\ (forall k,
        tags (attrs (d (Read meta s).2)) !! k
        = if ProviderReservedKey k || ignoredByConfig (IgnoreTagsConfig meta) k
          then None
          else Ec2KeyValueTags (ec2.Tags rt) !! k)
  /\ transit_gateway_id (attrs (d (Read meta s).2))
     = aws_StringValue (ec2.TransitGatewayId rt)
  /\ arn_ (attrs (d (Read meta s).2))
     = "arn:" +:+ partition meta +:+ ":ec2:" +:+ region meta +:+ ":"
         +:+ accountid meta +:+ ":transit-gateway-route-table/" +:+ Id (d s).
Proof.
  intros Hd (-> & -> & H1 & H2).
  rewrite (Read_live _ _ _ _ Hd H1 H2). simpl.
  repeat split.
  intros k. apply filtered_tags_lookup.
Qed.

(** C8, as amended.  When the creation call succeeds, its response
    carrying the new route table, and the wait for availability succeeds,
    Create finishes by delegating to Read: its result is that of Read on
    the state with the identifier of the response recorded.  If that Read
    finds a live descriptor, Create returns nil, the identifier is the
    one of the creation response (non-empty when that one is) and the
    owning transit gateway is the one the descriptor reports.  If that
    Read finds the route table gone, Create returns nil all the same, and
    the identifier is empty. *)
Theorem Create_success_delegates_to_Read meta s out rt w1 w2 :
  createCall meta s = ((out, None), w1) ->
  ec2.TransitGatewayRouteTable_ out = Some rt ->
  waitForEc2TransitGatewayRouteTableCreation
    (ec2conn meta) (aws_StringValue (ec2.TransitGatewayRouteTableId rt)) w1
  = (None, w2) ->
  Create meta s =
    Read meta
      (called (EvWaitForCreation (aws_StringValue (ec2.TransitGatewayRouteTableId rt))) w2
              (created s w1 (aws_StringValue (ec2.TransitGatewayRouteTableId rt))))
  /\ (forall desc err w3 live,
        describe (ec2conn meta)
                 (aws_StringValue (ec2.TransitGatewayRouteTableId rt)) w2
        = ((desc, err), w3) ->
        reportsLive desc err live ->
        (Create meta s).1 = Done None
        /\ Id (d (Create meta s).2)
           = aws_StringValue (ec2.TransitGatewayRouteTableId rt)
        /\ (aws_StringValue (ec2.TransitGatewayRouteTableId rt) <> "" ->
            Id (d (Create meta s).2) <> "")
        /\ transit_gateway_id (attrs (d (Create meta s).2))
           = aws_StringValue (ec2.TransitGatewayId live))
  /\ (forall desc err w3,
        describe (ec2conn meta)
                 (aws_StringValue (ec2.TransitGatewayRouteTableId rt)) w2
        = ((desc, err), w3) ->
        reportsGone desc err ->
        (Create meta s).1 = Done None /\ Id (d (Create meta s).2) = "").
Proof.
  intros Hc Hrt Hw.
  pose proof (Create_delegates _ _ _ _ _ _ Hc Hrt Hw) as HCreate.
  split; [exact HCreate | split].
  - intros desc err w3 live Hd (-> & -> & H1 & H2).
    rewrite HCreate.
    erewrite Read_live by (simpl; eauto). simpl. tauto.
  - intros desc err w3 Hd Hgone.
    rewrite HCreate.
    erewrite Read_gone by (simpl; eauto). simpl. tauto.
Qed.

(** C9.  Delete returns an error exactly when the deletion call fails
    with an error other than not-found, or the deletion call succeeds and
    the wait for the route table to be gone fails.  The first error is
    returned as "error deleting EC2 Transit Gateway Route Table: ..." and
    the second as "error waiting for EC2 Transit Gateway Route Table
    (<id>) deletion: ...".  After a deletion call that succeeded the wait
    is always performed, before Delete returns.  Delete never panics. *)
Theorem Delete_errors_iff_call_or_wait_fails meta s err1 w1 err2 w2 :
  deleteCall meta s = (err1, w1) ->
  waitForEc2TransitGatewayRouteTableDeletion (ec2conn meta) (Id (d s)) w1 = (err2, w2) ->
  ((exists e, (Delete meta s).1 = Done (Some e))
   <-> (exists e1, err1 = Some e1
                   /\ isAWSErr err1 "InvalidRouteTableID.NotFound" "" = false)
       \/ (err1 = None /\ exists e2, err2 = Some e2))
  /\ (exists r, (Delete meta s).1 = Done r)
  /\ (forall e1,
        err1 = Some e1 ->
        isAWSErr err1 "InvalidRouteTableID.NotFound" "" = false ->
        (Delete meta s).1
        = Done (Some (fmt_Errorf "error deleting EC2 Transit Gateway Route Table: " e1)))
  /\ (err1 = None ->
      (Delete meta s).1
      = Done (match err2 with
              | Some e2 =>
                  Some (fmt_Errorf
                          ("error waiting for EC2 Transit Gateway Route Table ("
                             +:+ Id (d s) +:+ ") deletion: ") e2)
              | None => None
              end)
      /\ trace (Delete meta s).2
         = trace s ++ [evDelete s; EvWaitForDeletion (Id (d s))]).
Proof.
  intros Hc Hw.
  destruct (isAWSErr err1 "InvalidRouteTableID.NotFound" "") eqn:Hnf.
  { (* not found: success, no wait *)
    rewrite (Delete_not_found _ _ _ _ Hc Hnf). simpl.
    split; [| split; [eauto | split]].
    - split.
      + intros [e He]. discriminate.
      + intros [(e1 & _ & Hf) | [-> _]]; [discriminate |].
        rewrite isAWSErr_nil in Hnf. discriminate.
    - intros e1 _ Hf. discriminate.
    - intros ->. rewrite isAWSErr_nil in Hnf. discriminate. }
  destruct err1 as [e1 |].
  { (* the call failed *)
    rewrite (Delete_call_fails _ _ _ _ Hc Hnf). simpl.
    split; [| split; [eauto | split]].
    - split; [intros _; left; eauto | eauto].
    - intros e [= <-] _. reflexivity.
    - discriminate. }
  (* the call succeeded: the wait decides *)
  rewrite (Delete_waits _ _ _ _ _ Hc Hw). simpl.
  split; [| split; [eauto | split]].
  - split.
    + intros [e He]. right. split; [reflexivity |].
      destruct err2 as [e2 |]; [eauto | discriminate].
    + intros [(e1 & Hf & _) | (_ & e2 & ->)]; [discriminate | eauto].
  - discriminate.
  - intros _. split; [reflexivity |]. now rewrite <- app_assoc.
Qed.

(** C10.  Update never writes to the stored state: whatever it returns,
    the [ResourceData] it leaves is the one it was handed (identifier,
    flags, locator, transit gateway reference and tags alike), and no
    setter ran: none of the events it adds is a write. *)
Theorem Update_never_writes_state meta s :
  d (Update meta s).2 = d s
  /\ (exists r, (Update meta s).1 = Done r)
  /\ exists evs,
       trace (Update meta s).2 = trace s ++ evs
       /\ Forall (fun e => is_setter e = false) evs.
Proof.
  destruct (decide (tags (prior (d s)) = tags (attrs (d s)))) as [Heq | Hne].
  - rewrite (Update_unchanged _ _ Heq).
    split; [reflexivity | split; [eauto |]].
    exists []. split; [now rewrite app_nil_r | constructor].
  - rewrite (Update_changed _ _ Hne). simpl.
    split; [reflexivity | split; [eauto |]].
    exists [evUpdate s]. split; [reflexivity |].
    constructor; [reflexivity | constructor].
Qed.

(** ** Further properties of the handler *)

(** Split on the describe result the way Read does, and rewrite Read by
    the case at hand. *)
Ltac Read_cases meta s :=
  let desc := fresh "desc" in
  let err := fresh "err" in
  let w := fresh "w" in
  let Hd := fresh "Hd" in
  let Hnf := fresh "Hnf" in
  let H1 := fresh "Hst" in
  let H2 := fresh "Hst" in
  destruct (describe (ec2conn meta) (Id (d s)) (world s)) as [[desc err] w] eqn:Hd;
  destruct (isAWSErr err "InvalidRouteTableID.NotFound" "") eqn:Hnf;
  [ rewrite (Read_not_found _ _ _ _ _ Hd Hnf)
  | destruct err as [? |];
    [ rewrite (Read_other_error _ _ _ _ _ Hd Hnf)
    | destruct desc as [? |];
      [ match goal with
        | Hd' : _ = ((Some ?rt, None), _) |- _ =>
            destruct (string_dec (aws_StringValue (ec2.State rt)) "deleting") as [H1 | H1];
            [ rewrite (Read_deleted _ _ _ _ Hd' (or_introl H1))
            | destruct (string_dec (aws_StringValue (ec2.State rt)) "deleted") as [H2 | H2];
              [ rewrite (Read_deleted _ _ _ _ Hd' (or_intror H2))
              | rewrite (Read_live _ _ _ _ Hd' H1 H2) ] ]
        end
      | rewrite (Read_nil _ _ _ Hd) ] ] ].

Lemma added_app (s s' : St World) (evs : list Event) :
  trace s' = trace s ++ evs -> added s s' = evs.
Proof.
  intros Heq. unfold added. rewrite Heq. apply drop_app_length.
Qed.

Lemma Update_keeps_data meta s : d (Update meta s).2 = d s.
Proof.
  destruct (decide (tags (prior (d s)) = tags (attrs (d s)))) as [Heq | Hne].
  - now rewrite (Update_unchanged _ _ Heq).
  - now rewrite (Update_changed _ _ Hne).
Qed.

Lemma Delete_trace meta s :
  (Delete meta s).2 =
    mkSt (d s)
         (match (deleteCall meta s).1 with
          | None =>
              (waitForEc2TransitGatewayRouteTableDeletion
                 (ec2conn meta) (Id (d s)) (deleteCall meta s).2).2
          | Some _ => (deleteCall meta s).2
          end)
         (trace s ++ evDelete s ::
            match (deleteCall meta s).1 with
            | None => [EvWaitForDeletion (Id (d s))]
            | Some _ => []
            end).
Proof.
  destruct (deleteCall meta s) as [err w1] eqn:Hc.
  destruct (isAWSErr err "InvalidRouteTableID.NotFound" "") eqn:Hnf.
  { rewrite (Delete_not_found _ _ _ _ Hc Hnf). simpl.
    destruct err; [reflexivity | now rewrite isAWSErr_nil in Hnf]. }
  destruct err as [e |].
  { now rewrite (Delete_call_fails _ _ _ _ Hc Hnf). }
  simpl.
  destruct (waitForEc2TransitGatewayRouteTableDeletion
              (ec2conn meta) (Id (d s)) w1) as [err2 w2] eqn:Hw.
  rewrite (Delete_waits _ _ _ _ _ Hc Hw). simpl.
  unfold called. simpl. now rewrite <- app_assoc.
Qed.

Lemma Delete_keeps_data meta s : d (Delete meta s).2 = d s.
Proof. now rewrite Delete_trace. Qed.

(** X1.  Read returns an error exactly when the describe call fails with
    an error other than not-found; in every other case it returns nil.
    It never panics. *)
Theorem Read_errors_iff_describe_fails meta s desc err w :
  describe (ec2conn meta) (Id (d s)) (world s) = ((desc, err), w) ->
  ((exists e, (Read meta s).1 = Done (Some e))
   <-> exists e0, err = Some e0
                  /\ isAWSErr err "InvalidRouteTableID.NotFound" "" = false)
  /\ ((Read meta s).1 = Done None
      \/ exists e, (Read meta s).1 = Done (Some e)).
Proof.
  intros Hdesc. Read_cases meta s; simpl;
    injection Hdesc as <- <- <-.
  - split; [split |];
      [intros [? [=]] | intros (? & _ & Hf); congruence | now left].
  - split; [split |]; eauto.
  - split; [split |]; [intros [? [=]] | intros (? & [=] & _) | now left].
  - split; [split |]; [intros [? [=]] | intros (? & [=] & _) | now left].
  - split; [split |]; [intros [? [=]] | intros (? & [=] & _) | now left].
  - split; [split |]; [intros [? [=]] | intros (? & [=] & _) | now left].
Qed.

(** X2.  Whatever the outcome, Read makes exactly one remote call, the
    describe call for the stored identifier, and the remote side is left
    as that call left it. *)
Theorem Read_makes_one_remote_call meta s :
  filter (fun e => is_remote_call e = true) (added s (Read meta s).2)
  = [EvDescribeTransitGatewayRouteTable (Id (d s))]
  /\ world (Read meta s).2 = (describe (ec2conn meta) (Id (d s)) (world s)).2.
Proof.
  Read_cases meta s; simpl;
    (split; [| reflexivity]);
    (erewrite added_app;
     [| unfold idSet, called, readWrites; simpl;
        rewrite <- ?app_assoc; simpl; reflexivity]);
    reflexivity.
Qed.

(** X3.  When the describe result says the route table is gone, Read
    clears the identifier and writes nothing else: prior snapshot and
    attributes are the ones it was handed, and the only setter it calls
    is [SetId] with the empty string. *)
Theorem Read_gone_clears_only_identifier meta s desc err w :
  describe (ec2conn meta) (Id (d s)) (world s) = ((desc, err), w) ->
  reportsGone desc err ->
  d (Read meta s).2 = with_Id "" (d s)
  /\ filter (fun e => is_setter e = true) (added s (Read meta s).2) = [EvSetId ""].
Proof.
  intros Hd Hgone. rewrite (Read_gone _ _ _ _ _ Hd Hgone). simpl.
  split; [reflexivity |].
  erewrite added_app
    by (unfold idSet, called; simpl; rewrite <- app_assoc; reflexivity).
  reflexivity.
Qed.

(** X4.  For a live descriptor Read overwrites every attribute: the
    attributes it leaves depend on the client, the identifier and the
    descriptor only, not on the attributes it was handed.  (This is what
    lets the pass-through importer hand Read a state that holds nothing
    but the identifier.) *)
Theorem Read_attributes_independent_of_stored meta s1 s2 desc err rt w :
  Id (d s1) = Id (d s2) ->
  world s1 = world s2 ->
  describe (ec2conn meta) (Id (d s1)) (world s1) = ((desc, err), w) ->
  reportsLive desc err rt ->
  attrs (d (Read meta s1).2) = attrs (d (Read meta s2).2)
  /\ Id (d (Read meta s1).2) = Id (d (Read meta s2).2)
  /\ (Read meta s1).1 = (Read meta s2).1.
Proof.
  intros Hid Hw Hd (-> & -> & H1 & H2).
  rewrite (Read_live _ _ _ _ Hd H1 H2).
  rewrite Hid, Hw in Hd.
  rewrite (Read_live _ _ _ _ Hd H1 H2). simpl.
  now rewrite Hid.
Qed.

(** X5.  Read is idempotent on a remote side that stands still: when the
    describe call leaves the remote side as it was and shows a live
    descriptor, a second Read returns nil again and leaves the stored
    state the first Read left. *)
Theorem Read_idempotent_on_stable_remote meta s desc err rt :
  describe (ec2conn meta) (Id (d s)) (world s) = ((desc, err), world s) ->
  reportsLive desc err rt ->
  (Read meta (Read meta s).2).1 = Done None
  /\ d (Read meta (Read meta s).2).2 = d (Read meta s).2.
Proof.
  intros Hd (-> & -> & H1 & H2).
  rewrite (Read_live _ _ _ _ Hd H1 H2).
  erewrite Read_live by (simpl; eauto). simpl. tauto.
Qed.

(** *** Read, in closed form *)

Lemma Read_result meta s desc err w :
  describe (ec2conn meta) (Id (d s)) (world s) = ((desc, err), w) ->
  (Read meta s).1
  = Done (if isAWSErr err "InvalidRouteTableID.NotFound" "" then None
          else match err with
               | Some e =>
                   Some (fmt_Errorf "error reading EC2 Transit Gateway Route Table: " e)
               | None => None
               end).
Proof.
  intros Hdesc. Read_cases meta s; simpl; injection Hdesc as <- <- <-;
    rewrite ?Hnf, ?isAWSErr_nil; reflexivity.
Qed.

Lemma Read_trace meta s :
  exists ws,
    trace (Read meta s).2
    = trace s ++ EvDescribeTransitGatewayRouteTable (Id (d s)) :: ws
    /\ filter (fun e => is_remote_call e = true) ws = [].
Proof.
  Read_cases meta s; simpl.
  - exists [EvSetId ""]. now rewrite <- app_assoc.
  - now exists [].
  - exists [EvSetId ""]. now rewrite <- app_assoc.
  - exists [EvSetId ""]. now rewrite <- app_assoc.
  - now exists readWrites.
  - exists [EvSetId ""]. now rewrite <- app_assoc.
Qed.

(** *** Create *)

(** X6.  With a creation response that carries a route table, Create
    returns an error exactly when the creation call fails, or the wait
    for availability fails, or the describe call of the Read it
    delegates to fails with an error other than not-found. *)
Theorem Create_errors_iff_a_step_fails meta s out err1 w1 rt err2 w2 desc err3 w3 :
  createCall meta s = ((out, err1), w1) ->
  ec2.TransitGatewayRouteTable_ out = Some rt ->
  waitForEc2TransitGatewayRouteTableCreation
    (ec2conn meta) (aws_StringValue (ec2.TransitGatewayRouteTableId rt)) w1
  = (err2, w2) ->
  describe (ec2conn meta) (aws_StringValue (ec2.TransitGatewayRouteTableId rt)) w2
  = ((desc, err3), w3) ->
  ((exists e, (Create meta s).1 = Done (Some e))
   <-> (exists e1, err1 = Some e1)
       \/ (err1 = None /\ exists e2, err2 = Some e2)
       \/ (err1 = None /\ err2 = None
           /\ exists e3, err3 = Some e3
                /\ isAWSErr err3 "InvalidRouteTableID.NotFound" "" = false)).
Proof.
  intros Hc Hrt Hw Hd.
  destruct err1 as [e1 |].
  { rewrite (Create_call_fails _ _ _ _ _ Hc). simpl. split; eauto. }
  destruct err2 as [e2 |].
  { rewrite (Create_wait_fails _ _ _ _ _ _ _ Hc Hrt Hw). simpl.
    split; [intros _; right; left; eauto | eauto]. }
  rewrite (Create_delegates _ _ _ _ _ _ Hc Hrt Hw).
  erewrite Read_result by (simpl; exact Hd).
  destruct (isAWSErr err3 "InvalidRouteTableID.NotFound" "") eqn:Hnf.
  { split; [intros [? [=]] |].
    intros [[? [=]] | [(_ & ? & [=]) | (_ & _ & ? & _ & [=])]]. }
  destruct err3 as [e3 |].
  - split; [intros _; right; right; eauto 6 | eauto].
  - split; [intros [? [=]] |].
    intros [[? [=]] | [(_ & ? & [=]) | (_ & _ & ? & [=] & _)]].
Qed.

(** X7.  Create panics exactly when the creation call returns no error
    together with a response that carries no route table: line 63
    dereferences the route table of the response without a nil check. *)
Theorem Create_panics_iff_nil_route_table meta s out err1 w1 :
  createCall meta s = ((out, err1), w1) ->
  (exists reason, (Create meta s).1 = Panic reason)
  <-> err1 = None /\ ec2.TransitGatewayRouteTable_ out = None.
Proof.
  intros Hc.
  destruct err1 as [e1 |].
  { rewrite (Create_call_fails _ _ _ _ _ Hc). simpl.
    split; [intros [? [=]] | intros [[=] _]]. }
  destruct (ec2.TransitGatewayRouteTable_ out) as [rt |] eqn:Hrt.
  2: { destruct (Create_nil_route_table _ _ _ _ Hc Hrt) as [r ->]. simpl.
       split; eauto. }
  split; [| intros [_ [=]]].
  intros [reason Hp]. exfalso. revert Hp.
  destruct (waitForEc2TransitGatewayRouteTableCreation (ec2conn meta)
              (aws_StringValue (ec2.TransitGatewayRouteTableId rt)) w1)
    as [[e2 |] w2] eqn:Hw.
  { now rewrite (Create_wait_fails _ _ _ _ _ _ _ Hc Hrt Hw). }
  rewrite (Create_delegates _ _ _ _ _ _ Hc Hrt Hw).
  match goal with |- context [Read meta ?s1] =>
    destruct (Read_never_panics meta s1) as [r ->]
  end.
  discriminate.
Qed.

(** X8.  When the wait for availability fails, the identifier is all
    Create has written: prior snapshot and attributes are the ones it
    was handed, and the remote side is as the waiter left it. *)
Theorem Create_wait_failure_writes_only_identifier meta s out rt e w1 w2 :
  createCall meta s = ((out, None), w1) ->
  ec2.TransitGatewayRouteTable_ out = Some rt ->
  waitForEc2TransitGatewayRouteTableCreation
    (ec2conn meta) (aws_StringValue (ec2.TransitGatewayRouteTableId rt)) w1
  = (Some e, w2) ->
  d (Create meta s).2
  = with_Id (aws_StringValue (ec2.TransitGatewayRouteTableId rt)) (d s)
  /\ world (Create meta s).2 = w2.
Proof.
  intros Hc Hrt Hw. now rewrite (Create_wait_fails _ _ _ _ _ _ _ Hc Hrt Hw).
Qed.

(** X9.  When the creation call, the wait and the describe call of the
    delegated Read all succeed and the descriptor is live, Create leaves
    the identifier of the creation response and the attributes of the
    descriptor; the resource locator it stores names the new identifier.
    Its remote calls were, in order: create, wait, describe. *)
Theorem Create_success_populates_state meta s out rt w1 w2 desc err live w3 :
  createCall meta s = ((out, None), w1) ->
  ec2.TransitGatewayRouteTable_ out = Some rt ->
  waitForEc2TransitGatewayRouteTableCreation
    (ec2conn meta) (aws_StringValue (ec2.TransitGatewayRouteTableId rt)) w1
  = (None, w2) ->
  describe (ec2conn meta) (aws_StringValue (ec2.TransitGatewayRouteTableId rt)) w2
  = ((desc, err), w3) ->
  reportsLive desc err live ->
  d (Create meta s).2
  = {| Id := aws_StringValue (ec2.TransitGatewayRouteTableId rt);
       prior := prior (d s);
       attrs := populated Ec2KeyValueTags ProviderReservedKey meta live
                          (aws_StringValue (ec2.TransitGatewayRouteTableId rt)) |}
  /\ arn_ (attrs (d (Create meta s).2))
     = "arn:" +:+ partition meta +:+ ":ec2:" +:+ region meta +:+ ":"
         +:+ accountid meta +:+ ":transit-gateway-route-table/"
         +:+ aws_StringValue (ec2.TransitGatewayRouteTableId rt)
  /\ world (Create meta s).2 = w3
  /\ filter (fun e => is_remote_call e = true) (added s (Create meta s).2)
     = [evCreate s;
        EvWaitForCreation (aws_StringValue (ec2.TransitGatewayRouteTableId rt));
        EvDescribeTransitGatewayRouteTable
          (aws_StringValue (ec2.TransitGatewayRouteTableId rt))].
Proof.
  intros Hc Hrt Hw Hd (-> & -> & H1 & H2).
  rewrite (Create_delegates _ _ _ _ _ _ Hc Hrt Hw).
  erewrite Read_live by (simpl; eauto). simpl.
  split; [reflexivity | split; [reflexivity | split; [reflexivity |]]].
  erewrite added_app
    by (unfold readWrites; simpl; rewrite <- ?app_assoc; simpl; reflexivity).
  reflexivity.
Qed.

(** X10.  The remote calls of Create are, in this order, the creation
    call, the wait and the describe call of Read, cut short where a step
    fails: Create never deletes, never updates tags, and neither waits
    nor describes before the creation call has returned. *)
Theorem Create_remote_calls_in_order meta s :
  exists id k,
    1 <= k
    /\ filter (fun e => is_remote_call e = true) (added s (Create meta s).2)
       = take k [evCreate s;
                 EvWaitForCreation id;
                 EvDescribeTransitGatewayRouteTable id].
Proof.
  destruct (createCall meta s) as [[out [e |]] w1] eqn:Hc.
  { exists "", 1. split; [lia |].
    rewrite (Create_call_fails _ _ _ _ _ Hc). simpl.
    now erewrite added_app by reflexivity. }
  destruct (ec2.TransitGatewayRouteTable_ out) as [rt |] eqn:Hrt.
  2: { exists "", 1. split; [lia |].
       destruct (Create_nil_route_table _ _ _ _ Hc Hrt) as [r ->]. simpl.
       now erewrite added_app by reflexivity. }
  exists (aws_StringValue (ec2.TransitGatewayRouteTableId rt)).
  destruct (waitForEc2TransitGatewayRouteTableCreation (ec2conn meta)
              (aws_StringValue (ec2.TransitGatewayRouteTableId rt)) w1)
    as [[e |] w2] eqn:Hw.
  { exists 2. split; [lia |].
    rewrite (Create_wait_fails _ _ _ _ _ _ _ Hc Hrt Hw). simpl.
    erewrite added_app
      by (unfold idSet, called; simpl; rewrite <- ?app_assoc; simpl; reflexivity).
    reflexivity. }
  exists 3. split; [lia |].
  rewrite (Create_delegates _ _ _ _ _ _ Hc Hrt Hw).
  match goal with |- context [Read meta ?s1] =>
    destruct (Read_trace meta s1) as (ws & Htr & Hws)
  end.
  erewrite added_app
    by (rewrite Htr; unfold idSet, called; simpl;
        rewrite <- ?app_assoc; simpl; reflexivity).
  match goal with
  | |- context [filter _ (?a :: ?b :: ?c :: ?e :: ws)] =>
      change (a :: b :: c :: e :: ws) with ([a; b; c; e] ++ ws)
  end.
  rewrite filter_app, Hws, app_nil_r. reflexivity.
Qed.

(** *** Update and Delete *)

(** X11.  Update returns an error exactly when the tags differ between
    the old and the new snapshot and the tag-update call fails.  It makes
    that call, for the stored identifier with the old and the new tags,
    exactly when the tags differ, and makes no other call. *)
Theorem Update_errors_iff_tag_update_fails meta s :
  ((exists e, (Update meta s).1 = Done (Some e))
   <-> tags (prior (d s)) <> tags (attrs (d s))
       /\ exists e0, (updateCall meta s).1 = Some e0)
  /\ added s (Update meta s).2
     = (if decide (tags (prior (d s)) = tags (attrs (d s)))
        then []
        else [EvUpdateTags (Id (d s)) (tags (prior (d s))) (tags (attrs (d s)))])
  /\ world (Update meta s).2
     = (if decide (tags (prior (d s)) = tags (attrs (d s)))
        then world s
        else (updateCall meta s).2).
Proof.
  destruct (decide (tags (prior (d s)) = tags (attrs (d s)))) as [Heq | Hne].
  - rewrite (Update_unchanged _ _ Heq). simpl.
    split; [| split; [| reflexivity]].
    + split; [intros [? [=]] | intros [Hne _]; contradiction].
    + unfold added. apply drop_all.
  - rewrite (Update_changed _ _ Hne). simpl.
    split; [| split; [| reflexivity]].
    + destruct (updateCall meta s).1 as [e0 |].
      * split; eauto.
      * split; [intros [? [=]] | intros (_ & ? & [=])].
    + now erewrite added_app by reflexivity.
Qed.

(** X12.  Delete never writes to the stored state: whatever the
    deletion call and the wait return, the [ResourceData] it leaves is
    the one it was handed, identifier included, and it calls no setter.
    Clearing the identifier after a delete is left to the framework. *)
Theorem Delete_never_writes_state meta s :
  d (Delete meta s).2 = d s
  /\ filter (fun e => is_setter e = true) (added s (Delete meta s).2) = [].
Proof.
  rewrite Delete_trace. simpl. split; [reflexivity |].
  erewrite added_app by reflexivity.
  now destruct (deleteCall meta s).1.
Qed.

(** X13.  Delete always sends the deletion request for the stored
    identifier first, and waits exactly when that call returned no
    error: after any error, not-found included, it returns without
    waiting, with the remote side as the deletion call left it. *)
Theorem Delete_waits_iff_call_succeeded meta s err1 w1 :
  deleteCall meta s = (err1, w1) ->
  added s (Delete meta s).2
  = EvDeleteTransitGatewayRouteTable
      {| ec2.DeleteTransitGatewayRouteTableId := Some (Id (d s)) |}
    :: match err1 with
       | None => [EvWaitForDeletion (Id (d s))]
       | Some _ => []
       end
  /\ (forall e1, err1 = Some e1 -> world (Delete meta s).2 = w1)
  /\ (err1 = None ->
      world (Delete meta s).2
      = (waitForEc2TransitGatewayRouteTableDeletion
           (ec2conn meta) (Id (d s)) w1).2).
Proof.
  intros Hc. rewrite Delete_trace. simpl. rewrite Hc. simpl.
  split; [now erewrite added_app by reflexivity |].
  split; [now intros e1 -> | now intros ->].
Qed.

(** X17.  Update keeps no record of having run: handed the state it
    left, with the tags still differing between the snapshots, it makes
    the same tag-update call again. *)
Theorem Update_repeats_its_call meta s :
  tags (prior (d s)) <> tags (attrs (d s)) ->
  added (Update meta s).2 (Update meta (Update meta s).2).2
  = [EvUpdateTags (Id (d s)) (tags (prior (d s))) (tags (attrs (d s)))].
Proof.
  intros Hne.
  pose proof (Update_keeps_data meta s) as Hd.
  assert (Hne1 : tags (prior (d (Update meta s).2))
                 <> tags (attrs (d (Update meta s).2))) by now rewrite Hd.
  rewrite (Update_changed _ _ Hne1). simpl.
  erewrite added_app by reflexivity.
  now rewrite Hd.
Qed.

(** *** Runs *)

Lemma invokes_without_Create_identifier meta op s s' :
  invokes theResource meta op s s' ->
  op <> OpCreate ->
  Id (d s') = Id (d s) \/ Id (d s') = "".
Proof.
  intros Hinv Hop. inversion Hinv; subst; simpl.
  - contradiction.
  - apply Read_identifier.
  - left. now rewrite Update_keeps_data.
  - left. now rewrite Delete_keeps_data.
Qed.

(** X14.  Over any run of Read, Update and Delete, in any number and
    order, the identifier is at every end either the one the run started
    with or empty, and an empty identifier stays empty: only Create can
    bring in an identifier. *)
Theorem identifier_over_runs_without_Create meta ops s s' :
  runs theResource meta ops s s' ->
  Forall (fun op => op <> OpCreate) ops ->
  (Id (d s') = Id (d s) \/ Id (d s') = "")
  /\ (Id (d s) = "" -> Id (d s') = "").
Proof.
  intros Hruns. induction Hruns as [s | op ops s s1 s2 Hinv Hruns IH].
  - intros _. split; [now left | trivial].
  - intros Hall. inversion Hall as [| ? ? Hop Hops]; subst.
    destruct (IH Hops) as [IH1 IH2].
    destruct (invokes_without_Create_identifier _ _ _ _ Hinv Hop) as [H1 | H1].
    + rewrite <- H1. split; [exact IH1 | exact IH2].
    + split; [right; auto |]. intros _. auto.
Qed.

(** X15.  Any run of Update and Delete leaves the stored state as it
    was: neither operation writes to the [ResourceData]. *)
Theorem stored_state_over_Update_Delete_runs meta ops s s' :
  runs theResource meta ops s s' ->
  Forall (fun op => op = OpUpdate \/ op = OpDelete) ops ->
  d s' = d s.
Proof.
  intros Hruns. induction Hruns as [s | op ops s s1 s2 Hinv Hruns IH].
  - reflexivity.
  - intros Hall. inversion Hall as [| ? ? Hop Hops]; subst.
    rewrite (IH Hops).
    inversion Hinv; subst; simpl.
    + destruct Hop; discriminate.
    + destruct Hop; discriminate.
    + apply Update_keeps_data.
    + apply Delete_keeps_data.
Qed.

(** *** The resource locator *)

Lemma append_inv_head (p a b : string) : p +:+ a = p +:+ b -> a = b.
Proof.
  induction p as [| c p IH]; simpl; [trivial |].
  intros [= Heq]. auto.
Qed.

(** X16.  For one client, the resource locator Read stores determines
    the identifier: two live route tables with the same locator have the
    same identifier. *)
Theorem Read_locator_determines_identifier
  meta s1 s2 desc1 err1 rt1 w1 desc2 err2 rt2 w2 :
  describe (ec2conn meta) (Id (d s1)) (world s1) = ((desc1, err1), w1) ->
  reportsLive desc1 err1 rt1 ->
  describe (ec2conn meta) (Id (d s2)) (world s2) = ((desc2, err2), w2) ->
  reportsLive desc2 err2 rt2 ->
  arn_ (attrs (d (Read meta s1).2)) = arn_ (attrs (d (Read meta s2).2)) ->
  Id (d s1) = Id (d s2).
Proof.
  intros Hd1 (-> & -> & H11 & H12) Hd2 (-> & -> & H21 & H22).
  rewrite (Read_live _ _ _ _ Hd1 H11 H12), (Read_live _ _ _ _ Hd2 H21 H22).
  simpl. unfold arn.String. simpl. intros Harn.
  repeat first [ apply append_inv_head in Harn | injection Harn as Harn ].
  exact Harn.
Qed.

(** ** The identifier over the life of the resource *)

Lemma Read_identifier_exact meta s desc err w :
  describe (ec2conn meta) (Id (d s)) (world s) = ((desc, err), w) ->
  (reportsGone desc err /\ Id (d (Read meta s).2) = "")
  \/ (~ reportsGone desc err /\ Id (d (Read meta s).2) = Id (d s)).
Proof.
  intros Hd.
  destruct (isAWSErr err "InvalidRouteTableID.NotFound" "") eqn:Hnf.
  { left. split; [now left |]. now rewrite (Read_not_found _ _ _ _ _ Hd Hnf). }
  destruct err as [e |].
  { right. split.
    - intros [H | [[H _] | [H _]]]; congruence.
    - now rewrite (Read_other_error _ _ _ _ _ Hd Hnf). }
  destruct desc as [rt |].
  2: { left. split; [right; left; split; reflexivity |].
       now rewrite (Read_nil _ _ _ Hd). }
  destruct (string_dec (aws_StringValue (ec2.State rt)) "deleting") as [H1 | H1].
  { left. split; [right; right; split; [reflexivity | exists rt; auto] |].
    now rewrite (Read_deleted _ _ _ _ Hd (or_introl H1)). }
  destruct (string_dec (aws_StringValue (ec2.State rt)) "deleted") as [H2 | H2].
  { left. split; [right; right; split; [reflexivity | exists rt; auto] |].
    now rewrite (Read_deleted _ _ _ _ Hd (or_intror H2)). }
  right. split.
  - intros [H | [[_ H] | (_ & rt' & [= <-] & [H | H])]]; congruence.
  - now rewrite (Read_live _ _ _ _ Hd H1 H2).
Qed.

Lemma Create_identifier_recorded meta s out rt w1 :
  createCall meta s = ((out, None), w1) ->
  ec2.TransitGatewayRouteTable_ out = Some rt ->
  ((waitForEc2TransitGatewayRouteTableCreation
      (ec2conn meta) (aws_StringValue (ec2.TransitGatewayRouteTableId rt)) w1).1
   <> None ->
   Id (d (Create meta s).2) = aws_StringValue (ec2.TransitGatewayRouteTableId rt))
  /\ ((waitForEc2TransitGatewayRouteTableCreation
         (ec2conn meta) (aws_StringValue (ec2.TransitGatewayRouteTableId rt)) w1).1
      = None ->
      (reportsGone (delegatedDescribe meta rt w1).1 (delegatedDescribe meta rt w1).2 ->
       Id (d (Create meta s).2) = "")
      /\ (~ reportsGone (delegatedDescribe meta rt w1).1 (delegatedDescribe meta rt w1).2 ->
          Id (d (Create meta s).2)
          = aws_StringValue (ec2.TransitGatewayRouteTableId rt))).
Proof.
  intros Hc Hrt.
  destruct (waitForEc2TransitGatewayRouteTableCreation (ec2conn meta)
              (aws_StringValue (ec2.TransitGatewayRouteTableId rt)) w1)
    as [[e |] w2] eqn:Hw; simpl.
  { rewrite (Create_wait_fails _ _ _ _ _ _ _ Hc Hrt Hw). simpl.
    split; [reflexivity | discriminate]. }
  rewrite (Create_delegates _ _ _ _ _ _ Hc Hrt Hw).
  split; [intros Hne; now destruct Hne |]. intros _.
  destruct (describe (ec2conn meta)
              (aws_StringValue (ec2.TransitGatewayRouteTableId rt)) w2)
    as [[desc err] w3] eqn:Hd. simpl.
  match goal with |- context [Read meta ?s1] =>
    destruct (Read_identifier_exact meta s1 desc err w3 Hd) as [[Hg Hid] | [Hng Hid]]
  end.
  - split; [intros _; exact Hid | intros Hng; contradiction].
  - split; [intros Hg; contradiction | intros _; exact Hid].
Qed.

Lemma Create_identifier_or_empty meta s out rt w1 :
  createCall meta s = ((out, None), w1) ->
  ec2.TransitGatewayRouteTable_ out = Some rt ->
  Id (d (Create meta s).2) = aws_StringValue (ec2.TransitGatewayRouteTableId rt)
  \/ Id (d (Create meta s).2) = "".
Proof.
  intros Hc Hrt.
  destruct (waitForEc2TransitGatewayRouteTableCreation (ec2conn meta)
              (aws_StringValue (ec2.TransitGatewayRouteTableId rt)) w1)
    as [[e |] w2] eqn:Hw.
  { left. now rewrite (Create_wait_fails _ _ _ _ _ _ _ Hc Hrt Hw). }
  rewrite (Create_delegates _ _ _ _ _ _ Hc Hrt Hw).
  match goal with |- context [Read meta ?s1] =>
    destruct (Read_identifier meta s1) as [-> | ->]; [now left | now right]
  end.
Qed.

(** C7.  The stored identifier is empty until creation succeeds, and
    once set it never changes for the life of the resource.  The
    framework invokes Create on a new resource only, one whose
    identifier is empty; for every invocation of Create, Read, Update or
    Delete under that rule:
    - an identifier that was empty is non-empty afterwards only when the
      operation is Create and its creation call succeeded, and it is
      then the identifier of the creation response;
    - an identifier that was set is afterwards the same identifier or
      empty, never another value;
    - it is emptied by Read only, and Read empties it exactly when the
      describe result says the route table is gone (not-found, nil
      descriptor, deleting or deleted), which ends the life of the
      resource; otherwise Read keeps it;
    - Update and Delete leave the stored state as it was;
    - Create records the identifier of the creation response once the
      creation call has succeeded, and nothing before: it stays recorded
      when the wait fails, and after a successful wait it is kept or
      emptied by the Read that Create delegates to, by the rule
      above. *)
Theorem identifier_fixed_for_lifetime meta op s s' :
  invokes theResource meta op s s' ->
  (op = OpCreate -> Id (d s) = "") ->
  (Id (d s) = "" -> Id (d s') <> "" ->
   op = OpCreate
   /\ exists out rt w,
        createCall meta s = ((out, None), w)
        /\ ec2.TransitGatewayRouteTable_ out = Some rt
        /\ Id (d s') = aws_StringValue (ec2.TransitGatewayRouteTableId rt))
  /\ (Id (d s) <> "" -> Id (d s') = Id (d s) \/ Id (d s') = "")
  /\ (Id (d s) <> "" -> Id (d s') = "" ->
      op = OpRead
      /\ reportsGone (describe (ec2conn meta) (Id (d s)) (world s)).1.1
                     (describe (ec2conn meta) (Id (d s)) (world s)).1.2)
  /\ (op = OpRead ->
      (reportsGone (describe (ec2conn meta) (Id (d s)) (world s)).1.1
                   (describe (ec2conn meta) (Id (d s)) (world s)).1.2 ->
       Id (d s') = "")
      /\ (~ reportsGone (describe (ec2conn meta) (Id (d s)) (world s)).1.1
                        (describe (ec2conn meta) (Id (d s)) (world s)).1.2 ->
          Id (d s') = Id (d s)))
  /\ (op = OpUpdate \/ op = OpDelete -> d s' = d s)
  /\ (op = OpCreate ->
      forall out e w, createCall meta s = ((out, Some e), w) -> d s' = d s)
  /\ (op = OpCreate ->
      forall out rt w1,
        createCall meta s = ((out, None), w1) ->
        ec2.TransitGatewayRouteTable_ out = Some rt ->
        ((waitForEc2TransitGatewayRouteTableCreation
            (ec2conn meta) (aws_StringValue (ec2.TransitGatewayRouteTableId rt)) w1).1
         <> None ->
         Id (d s') = aws_StringValue (ec2.TransitGatewayRouteTableId rt))
        /\ ((waitForEc2TransitGatewayRouteTableCreation
               (ec2conn meta) (aws_StringValue (ec2.TransitGatewayRouteTableId rt)) w1).1
            = None ->
            (reportsGone (delegatedDescribe meta rt w1).1
                         (delegatedDescribe meta rt w1).2 ->
             Id (d s') = "")
            /\ (~ reportsGone (delegatedDescribe meta rt w1).1
                              (delegatedDescribe meta rt w1).2 ->
                Id (d s')
                = aws_StringValue (ec2.TransitGatewayRouteTableId rt)))).
Proof.
  intros Hinv Hnew. inversion Hinv as [s0 | s0 | s0 | s0]; subst; simpl.
  - (* Create, on an empty identifier *)
    specialize (Hnew eq_refl).
    split; [| split; [| split; [| split; [| split; [| split]]]]].
    + intros _ Hset. split; [reflexivity |].
      destruct (createCall meta s) as [[out [e |]] w1] eqn:Hc.
      { rewrite (Create_call_fails _ _ _ _ _ Hc) in Hset. simpl in Hset.
        congruence. }
      destruct (ec2.TransitGatewayRouteTable_ out) as [rt |] eqn:Hrt.
      2: { destruct (Create_nil_route_table _ _ _ _ Hc Hrt) as [r Hp].
           rewrite Hp in Hset. simpl in Hset. congruence. }
      exists out, rt, w1. split; [reflexivity | split; [exact Hrt |]].
      destruct (Create_identifier_or_empty _ _ _ _ _ Hc Hrt) as [Hid | Hid];
        [exact Hid | congruence].
    + intros Hset. congruence.
    + intros Hset. congruence.
    + discriminate.
    + intros [[=] | [=]].
    + intros _ out e w Hc. now rewrite (Create_call_fails _ _ _ _ _ Hc).
    + intros _ out rt w1 Hc Hrt. exact (Create_identifier_recorded _ _ _ _ _ Hc Hrt).
  - (* Read *)
    destruct (describe (ec2conn meta) (Id (d s)) (world s)) as [[desc err] w] eqn:Hd.
    simpl.
    destruct (Read_identifier_exact _ _ _ _ _ Hd) as [[Hg Hid] | [Hng Hid]].
    + split; [| split; [| split; [| split; [| split; [| split]]]]];
        try discriminate.
      * intros _ Hset. congruence.
      * intros _. now right.
      * intros _ _. split; [reflexivity | exact Hg].
      * intros _. split; [intros _; exact Hid | intros Hng; contradiction].
      * intros [[=] | [=]].
    + split; [| split; [| split; [| split; [| split; [| split]]]]];
        try discriminate.
      * intros Hempty Hset. congruence.
      * intros _. now left.
      * intros Hset Hcleared. congruence.
      * intros _. split; [intros Hg; contradiction | intros _; exact Hid].
      * intros [[=] | [=]].
  - (* Update *)
    pose proof (Update_keeps_data meta s) as Hd.
    split; [| split; [| split; [| split; [| split; [| split]]]]];
      try discriminate.
    + intros Hempty Hset. rewrite Hd in Hset. contradiction.
    + intros _. left. now rewrite Hd.
    + intros Hset Hcleared. rewrite Hd in Hcleared. contradiction.
    + intros _. exact Hd.
  - (* Delete *)
    pose proof (Delete_keeps_data meta s) as Hd.
    split; [| split; [| split; [| split; [| split; [| split]]]]];
      try discriminate.
    + intros Hempty Hset. rewrite Hd in Hset. contradiction.
    + intros _. left. now rewrite Hd.
    + intros Hset Hcleared. rewrite Hd in Hcleared. contradiction.
    + intros _. exact Hd.
Qed.

End Properties.

(** * Worked runs

    The theorems above at concrete inputs, on the simulated EC2. *)

(** The scenario of the specification: Create for transit gateway
    [tgw-123] with one tag, then Delete, then Read. *)
Example scenario :
  let c := Sim.client Sim.conn in
  let s1 := (Sim.Create c Sim.fresh).2 in
  let s2 := (Sim.Delete c s1).2 in
  let s3 := (Sim.Read c s2).2 in
  (Sim.Create c Sim.fresh).1 = Done None
  /\ Id (d s1) = "tgw-rtb-abc"
  /\ default_association_route_table (attrs (d s1)) = false
  /\ default_propagation_route_table (attrs (d s1)) = false
  /\ tags (attrs (d s1)) = {[ "env" := "prod" ]}
  /\ transit_gateway_id (attrs (d s1)) = "tgw-123"
  /\ arn_ (attrs (d s1))
     = "arn:aws:ec2:eu-west-1:123456789012:transit-gateway-route-table/tgw-rtb-abc"
  /\ (Sim.Delete c s1).1 = Done None
  /\ (Sim.Read c s2).1 = Done None
  /\ Id (d s3) = "".
Proof. vm_compute. repeat split. Qed.

Lemma Read_outcome_decided_by_describe_witness :
  ((Sim.Read (Sim.client Sim.conn) Sim.orphan).1 = Done None
   /\ Id (d (Sim.Read (Sim.client Sim.conn) Sim.orphan).2) = "")
  /\ ((Sim.ReadDenied (Sim.client Sim.conn) Sim.orphan).1
      = Done (Some (ErrorString
           "error reading EC2 Transit Gateway Route Table: UnauthorizedOperation: not authorized"))
      /\ d (Sim.ReadDenied (Sim.client Sim.conn) Sim.orphan).2 = d Sim.orphan
      /\ trace (Sim.ReadDenied (Sim.client Sim.conn) Sim.orphan).2
         = [EvDescribeTransitGatewayRouteTable "tgw-rtb-abc"]).
Proof.
  split.
  - apply (proj1 (Read_outcome_decided_by_describe
             Sim.describe Sim.Ec2KeyValueTags Sim.ProviderReservedKey
             (Sim.client Sim.conn) Sim.orphan None (Some Sim.notFound) ∅
             eq_refl)).
    left. reflexivity.
  - exact (proj2 (Read_outcome_decided_by_describe
             Sim.describeDenied Sim.Ec2KeyValueTags Sim.ProviderReservedKey
             (Sim.client Sim.conn) Sim.orphan None
             (Some (AwsErr "UnauthorizedOperation" "not authorized")) ∅
             eq_refl)
           (AwsErr "UnauthorizedOperation" "not authorized") eq_refl eq_refl).
Defined.

Lemma Delete_not_found_returns_success_witness :
  (Sim.Delete (Sim.client Sim.conn) Sim.afterCreate).1 = Done None
  /\ (Sim.Delete (Sim.client Sim.conn) Sim.afterDelete).1 = Done None
  /\ d (Sim.Delete (Sim.client Sim.conn) Sim.afterDelete).2 = d Sim.afterDelete.
Proof.
  split; [reflexivity |].
  destruct (Delete_not_found_returns_success
              Sim.waitOk (Sim.client Sim.conn) Sim.afterDelete
              (Some Sim.notFound) (world Sim.afterDelete) eq_refl eq_refl)
    as (H1 & H2 & _).
  split; [exact H1 | exact H2].
Defined.

Lemma Create_call_error_records_no_identifier_witness :
  (Sim.Create (Sim.client Sim.connCreateFails) Sim.fresh).1
  = Done (Some (ErrorString
       "error creating EC2 Transit Gateway Route Table: InvalidTransitGatewayID.NotFound: no such transit gateway"))
  /\ Id (d (Sim.Create (Sim.client Sim.connCreateFails) Sim.fresh).2) = ""
  /\ Forall (fun e => is_setter e = false)
            (trace (Sim.Create (Sim.client Sim.connCreateFails) Sim.fresh).2).
Proof.
  destruct (Create_call_error_records_no_identifier
              Sim.describe Sim.waitOk Sim.ec2TagSpecificationsFromMap
              Sim.Ec2KeyValueTags Sim.ProviderReservedKey
              (Sim.client Sim.connCreateFails) Sim.fresh
              {| ec2.TransitGatewayRouteTable_ := None |}
              (AwsErr "InvalidTransitGatewayID.NotFound" "no such transit gateway")
              ∅ eq_refl)
    as (H1 & _ & H3 & H4).
  split; [exact H1 | split; [exact (H3 eq_refl) |]].
  unfold Sim.Create. rewrite H4. repeat constructor.
Defined.

Lemma Create_wait_failure_keeps_identifier_witness :
  (Sim.CreateWaitTimesOut (Sim.client Sim.conn) Sim.fresh).1
  = Done (Some (ErrorString
       "error waiting for EC2 Transit Gateway Route Table (tgw-rtb-abc) availability: timeout while waiting for state"))
  /\ Id (d (Sim.CreateWaitTimesOut (Sim.client Sim.conn) Sim.fresh).2) = "tgw-rtb-abc".
Proof.
  edestruct (Create_wait_failure_keeps_identifier
               Sim.describe Sim.waitTimesOut Sim.ec2TagSpecificationsFromMap
               Sim.Ec2KeyValueTags Sim.ProviderReservedKey
               (Sim.client Sim.conn) Sim.fresh)
    as (H1 & H2 & _); [reflexivity | reflexivity | reflexivity |].
  split; [exact H1 | exact H2].
Defined.

Lemma Update_without_tag_change_makes_no_call_witness :
  (Sim.Update (Sim.client Sim.conn) Sim.tracked).1 = Done None
  /\ (Sim.Update (Sim.client Sim.conn) Sim.tracked).2 = Sim.tracked.
Proof.
  destruct (Update_without_tag_change_makes_no_call
              Sim.updateTags (Sim.client Sim.conn) Sim.tracked eq_refl)
    as (H1 & H2 & _).
  split; [exact H1 | exact H2].
Defined.

Lemma Read_populates_from_live_descriptor_witness :
  (Sim.Read (Sim.client Sim.conn) Sim.tracked).1 = Done None
  /\ Id (d (Sim.Read (Sim.client Sim.conn) Sim.tracked).2) = "tgw-rtb-abc"
  /\ default_association_route_table
       (attrs (d (Sim.Read (Sim.client Sim.conn) Sim.tracked).2)) = true
  /\ default_propagation_route_table
       (attrs (d (Sim.Read (Sim.client Sim.conn) Sim.tracked).2)) = false
  /\ tags (attrs (d (Sim.Read (Sim.client Sim.conn) Sim.tracked).2)) !! "env"
     = Some "prod"
  /\ tags (attrs (d (Sim.Read (Sim.client Sim.conn) Sim.tracked).2)) !! "aws:createdBy"
     = None
  /\ tags (attrs (d (Sim.Read (Sim.client Sim.conn) Sim.tracked).2)) !! "owner"
     = None
  /\ transit_gateway_id (attrs (d (Sim.Read (Sim.client Sim.conn) Sim.tracked).2))
     = "tgw-123"
  /\ arn_ (attrs (d (Sim.Read (Sim.client Sim.conn) Sim.tracked).2))
     = "arn:aws:ec2:eu-west-1:123456789012:transit-gateway-route-table/tgw-rtb-abc".
Proof.
  assert (Hlive : reportsLive (Some Sim.remoteTable) None Sim.remoteTable).
  { repeat split; discriminate. }
  destruct (Read_populates_from_live_descriptor
              Sim.describe Sim.Ec2KeyValueTags Sim.ProviderReservedKey
              (Sim.client Sim.conn) Sim.tracked
              (Some Sim.remoteTable) None Sim.remoteTable (world Sim.tracked)
              eq_refl Hlive)
    as (H1 & H2 & H3 & H4 & H5 & H6 & H7).
  exact (conj H1 (conj H2 (conj H3 (conj H4
           (conj (H5 "env") (conj (H5 "aws:createdBy") (conj (H5 "owner")
              (conj H6 H7)))))))).
Defined.

Lemma identifier_fixed_for_lifetime_witness :
  (OpCreate = OpCreate
   /\ exists out rt w,
        CreateTransitGatewayRouteTable Sim.conn
          (createInput Sim.ec2TagSpecificationsFromMap (d Sim.fresh)) ∅
        = ((out, None), w)
        /\ ec2.TransitGatewayRouteTable_ out = Some rt
        /\ Id (d (Sim.Create (Sim.client Sim.conn) Sim.fresh).2)
           = aws_StringValue (ec2.TransitGatewayRouteTableId rt))
  /\ Id (d (Sim.Read (Sim.client Sim.conn) Sim.orphan).2) = ""
  /\ Id (d (Sim.Read (Sim.client Sim.conn) Sim.tracked).2) = Id (d Sim.tracked)
  /\ d (Sim.Delete (Sim.client Sim.conn) Sim.tracked).2 = d Sim.tracked.
Proof.
  split; [| split; [| split]].
  - destruct (identifier_fixed_for_lifetime
                Sim.describe Sim.waitOk Sim.waitOk Sim.updateTags
                Sim.ec2TagSpecificationsFromMap Sim.Ec2KeyValueTags
                Sim.ProviderReservedKey (Sim.client Sim.conn) OpCreate Sim.fresh _
                (invokes_Create Sim.resource _ _) (fun _ => eq_refl))
      as (H1 & _).
    apply H1; [reflexivity | discriminate].
  - destruct (identifier_fixed_for_lifetime
                Sim.describe Sim.waitOk Sim.waitOk Sim.updateTags
                Sim.ec2TagSpecificationsFromMap Sim.Ec2KeyValueTags
                Sim.ProviderReservedKey (Sim.client Sim.conn) OpRead Sim.orphan _
                (invokes_Read Sim.resource _ _) ltac:(discriminate))
      as (_ & _ & _ & H4 & _).
    apply (proj1 (H4 eq_refl)). left. reflexivity.
  - destruct (identifier_fixed_for_lifetime
                Sim.describe Sim.waitOk Sim.waitOk Sim.updateTags
                Sim.ec2TagSpecificationsFromMap Sim.Ec2KeyValueTags
                Sim.ProviderReservedKey (Sim.client Sim.conn) OpRead Sim.tracked _
                (invokes_Read Sim.resource _ _) ltac:(discriminate))
      as (_ & _ & _ & H4 & _).
    apply (proj2 (H4 eq_refl)).
    intros [H | [[_ H] | (_ & rt & H1 & [H2 | H2])]].
    + discriminate H.
    + discriminate H.
    + injection H1 as <-. discriminate H2.
    + injection H1 as <-. discriminate H2.
  - destruct (identifier_fixed_for_lifetime
                Sim.describe Sim.waitOk Sim.waitOk Sim.updateTags
                Sim.ec2TagSpecificationsFromMap Sim.Ec2KeyValueTags
                Sim.ProviderReservedKey (Sim.client Sim.conn) OpDelete Sim.tracked _
                (invokes_Delete Sim.resource _ _) ltac:(discriminate))
      as (_ & _ & _ & _ & H5 & _).
    apply H5. right. reflexivity.
Defined.

Lemma Create_success_delegates_to_Read_witness :
  (Sim.Create (Sim.client Sim.conn) Sim.fresh).1 = Done None
  /\ Id (d (Sim.Create (Sim.client Sim.conn) Sim.fresh).2) = "tgw-rtb-abc"
  /\ Id (d (Sim.Create (Sim.client Sim.conn) Sim.fresh).2) <> ""
  /\ transit_gateway_id (attrs (d (Sim.Create (Sim.client Sim.conn) Sim.fresh).2))
     = "tgw-123".
Proof.
  edestruct (Create_success_delegates_to_Read
               Sim.describe Sim.waitOk Sim.ec2TagSpecificationsFromMap
               Sim.Ec2KeyValueTags Sim.ProviderReservedKey
               (Sim.client Sim.conn) Sim.fresh)
    as (_ & Hlive & _); [reflexivity | reflexivity | reflexivity |].
  edestruct Hlive as (H1 & H2 & H3 & H4).
  - reflexivity.
  - split; [reflexivity | split; [reflexivity | split; discriminate]].
  - exact (conj H1 (conj H2 (conj (H3 ltac:(discriminate)) H4))).
Defined.

Lemma Delete_errors_iff_call_or_wait_fails_witness :
  ((Sim.DeleteWaitTimesOut (Sim.client Sim.conn) Sim.tracked).1
   = Done (Some (ErrorString
        "error waiting for EC2 Transit Gateway Route Table (tgw-rtb-abc) deletion: timeout while waiting for state"))
   /\ trace (Sim.DeleteWaitTimesOut (Sim.client Sim.conn) Sim.tracked).2
      = [EvDeleteTransitGatewayRouteTable
           {| ec2.DeleteTransitGatewayRouteTableId := Some "tgw-rtb-abc" |};
         EvWaitForDeletion "tgw-rtb-abc"])
  /\ (Sim.Delete (Sim.client Sim.connDeleteDenied) Sim.tracked).1
     = Done (Some (ErrorString
          "error deleting EC2 Transit Gateway Route Table: UnauthorizedOperation: not authorized")).
Proof.
  split.
  - destruct (Delete_errors_iff_call_or_wait_fails
                Sim.waitTimesOut (Sim.client Sim.conn) Sim.tracked
                None ∅ (Some (ErrorString "timeout while waiting for state")) ∅
                eq_refl eq_refl)
      as (_ & _ & _ & H4).
    exact (H4 eq_refl).
  - destruct (Delete_errors_iff_call_or_wait_fails
                Sim.waitOk (Sim.client Sim.connDeleteDenied) Sim.tracked
                (Some (AwsErr "UnauthorizedOperation" "not authorized"))
                (world Sim.tracked) None (world Sim.tracked)
                eq_refl eq_refl)
      as (_ & _ & H3 & _).
    exact (H3 _ eq_refl eq_refl).
Defined.

(** C8 as stated fails.  For the non-empty owning reference [tgw-123],
    with the creation call and the wait both successful, the describe
    call of the Read that Create delegates to reports the new route
    table not found: Create returns nil, and the identifier of the
    resulting state is empty. *)
Lemma Create_success_with_empty_identifier_counterexample :
  transit_gateway_id (attrs (d Sim.fresh)) = "tgw-123"
  /\ (Sim.CreateStale (Sim.client Sim.conn) Sim.fresh).1 = Done None
  /\ Id (d (Sim.CreateStale (Sim.client Sim.conn) Sim.fresh).2) = ""
  /\ filter (fun e => is_remote_call e = true)
            (trace (Sim.CreateStale (Sim.client Sim.conn) Sim.fresh).2)
     = [EvCreateTransitGatewayRouteTable
          (createInput Sim.ec2TagSpecificationsFromMap (d Sim.fresh));
        EvWaitForCreation "tgw-rtb-abc";
        EvDescribeTransitGatewayRouteTable "tgw-rtb-abc"].
Proof.
  split; [reflexivity |].
  split; [reflexivity |].
  split; [reflexivity |].
  vm_compute. reflexivity.
Qed.

(** A failed tag update: the error is wrapped and the stored state is the
    one Update was handed. *)
Example Update_failure_run :
  (Sim.UpdateFails (Sim.client Sim.conn) Sim.retagged).1
  = Done (Some (ErrorString
       "error updating EC2 Transit Gateway Route Table (tgw-rtb-abc) tags: RequestLimitExceeded: slow down"))
  /\ d (Sim.UpdateFails (Sim.client Sim.conn) Sim.retagged).2 = d Sim.retagged
  /\ trace (Sim.UpdateFails (Sim.client Sim.conn) Sim.retagged).2
     = [EvUpdateTags "tgw-rtb-abc" {[ "env" := "prod" ]} ∅].
Proof. vm_compute. repeat split. Qed.

(** A creation response without a route table: the dereference panics. *)
Example Create_nil_response_run :
  exists reason,
    (resourceAwsEc2TransitGatewayRouteTableCreate
       Sim.describe Sim.waitOk Sim.ec2TagSpecificationsFromMap
       Sim.Ec2KeyValueTags Sim.ProviderReservedKey
       (Sim.client
          {| CreateTransitGatewayRouteTable := fun _ w =>
               (({| ec2.TransitGatewayRouteTable_ := None |}, None), w);
             DeleteTransitGatewayRouteTable :=
               DeleteTransitGatewayRouteTable Sim.conn |})
       Sim.fresh).1 = Panic reason.
Proof. eexists. reflexivity. Qed.

(** * Worked runs of the further properties *)

Lemma Read_errors_iff_describe_fails_witness :
  exists e, (Sim.ReadDenied (Sim.client Sim.conn) Sim.orphan).1 = Done (Some e).
Proof.
  exact (proj2 (proj1 (Read_errors_iff_describe_fails
                         Sim.describeDenied Sim.Ec2KeyValueTags Sim.ProviderReservedKey
                         (Sim.client Sim.conn) Sim.orphan None
                         (Some (AwsErr "UnauthorizedOperation" "not authorized")) ∅
                         eq_refl))
               (ex_intro _ (AwsErr "UnauthorizedOperation" "not authorized")
                         (conj eq_refl eq_refl))).
Defined.

Lemma Read_gone_clears_only_identifier_witness :
  d (Sim.Read (Sim.client Sim.conn) Sim.orphan).2 = with_Id "" (d Sim.orphan)
  /\ filter (fun e => is_setter e = true)
            (added Sim.orphan (Sim.Read (Sim.client Sim.conn) Sim.orphan).2)
     = [EvSetId ""].
Proof.
  apply (Read_gone_clears_only_identifier
           Sim.describe Sim.Ec2KeyValueTags Sim.ProviderReservedKey
           (Sim.client Sim.conn) Sim.orphan None (Some Sim.notFound) ∅ eq_refl).
  left. reflexivity.
Defined.

Lemma Read_attributes_independent_of_stored_witness :
  attrs (d (Sim.Read (Sim.client Sim.conn) Sim.imported).2)
  = attrs (d (Sim.Read (Sim.client Sim.conn) Sim.tracked).2)
  /\ Id (d (Sim.Read (Sim.client Sim.conn) Sim.imported).2)
     = Id (d (Sim.Read (Sim.client Sim.conn) Sim.tracked).2)
  /\ (Sim.Read (Sim.client Sim.conn) Sim.imported).1
     = (Sim.Read (Sim.client Sim.conn) Sim.tracked).1.
Proof.
  assert (Hlive : reportsLive (Some Sim.remoteTable) None Sim.remoteTable).
  { split; [reflexivity | split; [reflexivity | split; discriminate]]. }
  exact (Read_attributes_independent_of_stored
           Sim.describe Sim.Ec2KeyValueTags Sim.ProviderReservedKey
           (Sim.client Sim.conn) Sim.imported Sim.tracked
           (Some Sim.remoteTable) None Sim.remoteTable (world Sim.imported)
           eq_refl eq_refl eq_refl Hlive).
Defined.

Lemma Read_idempotent_on_stable_remote_witness :
  (Sim.Read (Sim.client Sim.conn) (Sim.Read (Sim.client Sim.conn) Sim.tracked).2).1
  = Done None
  /\ d (Sim.Read (Sim.client Sim.conn) (Sim.Read (Sim.client Sim.conn) Sim.tracked).2).2
     = d (Sim.Read (Sim.client Sim.conn) Sim.tracked).2.
Proof.
  assert (Hlive : reportsLive (Some Sim.remoteTable) None Sim.remoteTable).
  { split; [reflexivity | split; [reflexivity | split; discriminate]]. }
  exact (Read_idempotent_on_stable_remote
           Sim.describe Sim.Ec2KeyValueTags Sim.ProviderReservedKey
           (Sim.client Sim.conn) Sim.tracked
           (Some Sim.remoteTable) None Sim.remoteTable eq_refl Hlive).
Defined.

Lemma Create_errors_iff_a_step_fails_witness :
  exists e, (Sim.CreateWaitTimesOut (Sim.client Sim.conn) Sim.fresh).1 = Done (Some e).
Proof.
  eapply (Create_errors_iff_a_step_fails
            Sim.describe Sim.waitTimesOut Sim.ec2TagSpecificationsFromMap
            Sim.Ec2KeyValueTags Sim.ProviderReservedKey
            (Sim.client Sim.conn) Sim.fresh).
  - reflexivity.
  - reflexivity.
  - reflexivity.
  - reflexivity.
  - right. left. split; [reflexivity | eexists; reflexivity].
Defined.

Lemma Create_panics_iff_nil_route_table_witness :
  exists reason,
    (Sim.Create (Sim.client Sim.connNilResponse) Sim.fresh).1 = Panic reason.
Proof.
  exact (proj2 (Create_panics_iff_nil_route_table
                  Sim.describe Sim.waitOk Sim.ec2TagSpecificationsFromMap
                  Sim.Ec2KeyValueTags Sim.ProviderReservedKey
                  (Sim.client Sim.connNilResponse) Sim.fresh
                  {| ec2.TransitGatewayRouteTable_ := None |} None ∅ eq_refl)
               (conj eq_refl eq_refl)).
Defined.

Lemma Create_wait_failure_writes_only_identifier_witness :
  d (Sim.CreateWaitTimesOut (Sim.client Sim.conn) Sim.fresh).2
  = with_Id "tgw-rtb-abc" (d Sim.fresh).
Proof.
  edestruct (Create_wait_failure_writes_only_identifier
               Sim.describe Sim.waitTimesOut Sim.ec2TagSpecificationsFromMap
               Sim.Ec2KeyValueTags Sim.ProviderReservedKey
               (Sim.client Sim.conn) Sim.fresh)
    as (H1 & _); [reflexivity | reflexivity | reflexivity |].
  exact H1.
Defined.

Lemma Create_success_populates_state_witness :
  Id (d (Sim.Create (Sim.client Sim.conn) Sim.fresh).2) = "tgw-rtb-abc"
  /\ arn_ (attrs (d (Sim.Create (Sim.client Sim.conn) Sim.fresh).2))
     = "arn:aws:ec2:eu-west-1:123456789012:transit-gateway-route-table/tgw-rtb-abc"
  /\ filter (fun e => is_remote_call e = true)
            (added Sim.fresh (Sim.Create (Sim.client Sim.conn) Sim.fresh).2)
     = [EvCreateTransitGatewayRouteTable
          (createInput Sim.ec2TagSpecificationsFromMap (d Sim.fresh));
        EvWaitForCreation "tgw-rtb-abc";
        EvDescribeTransitGatewayRouteTable "tgw-rtb-abc"].
Proof.
  edestruct (Create_success_populates_state
               Sim.describe Sim.waitOk Sim.ec2TagSpecificationsFromMap
               Sim.Ec2KeyValueTags Sim.ProviderReservedKey
               (Sim.client Sim.conn) Sim.fresh)
    as (H1 & H2 & _ & H4).
  - reflexivity.
  - reflexivity.
  - reflexivity.
  - reflexivity.
  - split; [reflexivity | split; [reflexivity | split; discriminate]].
  - exact (conj (f_equal Id H1) (conj H2 H4)).
Defined.

Lemma Delete_waits_iff_call_succeeded_witness :
  added Sim.afterDelete (Sim.Delete (Sim.client Sim.conn) Sim.afterDelete).2
  = [EvDeleteTransitGatewayRouteTable
       {| ec2.DeleteTransitGatewayRouteTableId := Some "tgw-rtb-abc" |}]
  /\ added Sim.tracked (Sim.Delete (Sim.client Sim.conn) Sim.tracked).2
     = [EvDeleteTransitGatewayRouteTable
          {| ec2.DeleteTransitGatewayRouteTableId := Some "tgw-rtb-abc" |};
        EvWaitForDeletion "tgw-rtb-abc"].
Proof.
  split.
  - exact (proj1 (Delete_waits_iff_call_succeeded
                    Sim.waitOk (Sim.client Sim.conn) Sim.afterDelete
                    (Some Sim.notFound) (world Sim.afterDelete) eq_refl)).
  - exact (proj1 (Delete_waits_iff_call_succeeded
                    Sim.waitOk (Sim.client Sim.conn) Sim.tracked
                    None ∅ eq_refl)).
Defined.

Lemma identifier_over_runs_without_Create_witness :
  Id (d Sim.afterRun) = Id (d Sim.tracked) \/ Id (d Sim.afterRun) = "".
Proof.
  assert (Hruns : runs Sim.resource (Sim.client Sim.conn)
                       [OpRead; OpUpdate; OpDelete] Sim.tracked Sim.afterRun).
  { eapply runs_cons; [exact (invokes_Read Sim.resource _ _) |].
    eapply runs_cons; [exact (invokes_Update Sim.resource _ _) |].
    eapply runs_cons; [exact (invokes_Delete Sim.resource _ _) |].
    apply runs_nil. }
  apply (identifier_over_runs_without_Create
           Sim.describe Sim.waitOk Sim.waitOk Sim.updateTags
           Sim.ec2TagSpecificationsFromMap Sim.Ec2KeyValueTags
           Sim.ProviderReservedKey _ _ _ _ Hruns).
  repeat constructor; discriminate.
Defined.

Lemma stored_state_over_Update_Delete_runs_witness :
  d Sim.afterRetag = d Sim.retagged.
Proof.
  assert (Hruns : runs Sim.resource (Sim.client Sim.conn)
                       [OpUpdate; OpDelete] Sim.retagged Sim.afterRetag).
  { eapply runs_cons; [exact (invokes_Update Sim.resource _ _) |].
    eapply runs_cons; [exact (invokes_Delete Sim.resource _ _) |].
    apply runs_nil. }
  apply (stored_state_over_Update_Delete_runs
           Sim.describe Sim.waitOk Sim.waitOk Sim.updateTags
           Sim.ec2TagSpecificationsFromMap Sim.Ec2KeyValueTags
           Sim.ProviderReservedKey _ _ _ _ Hruns).
  constructor; [left; reflexivity |].
  constructor; [right; reflexivity | constructor].
Defined.

Lemma Read_locator_determines_identifier_witness :
  Id (d Sim.tracked) = Id (d Sim.imported).
Proof.
  assert (Hlive : reportsLive (Some Sim.remoteTable) None Sim.remoteTable).
  { split; [reflexivity | split; [reflexivity | split; discriminate]]. }
  exact (Read_locator_determines_identifier
           Sim.describe Sim.Ec2KeyValueTags Sim.ProviderReservedKey
           (Sim.client Sim.conn) Sim.tracked Sim.imported
           (Some Sim.remoteTable) None Sim.remoteTable (world Sim.tracked)
           (Some Sim.remoteTable) None Sim.remoteTable (world Sim.imported)
           eq_refl Hlive eq_refl Hlive eq_refl).
Defined.

Lemma Update_repeats_its_call_witness :
  added (Sim.Update (Sim.client Sim.conn) Sim.retagged).2
        (Sim.Update (Sim.client Sim.conn)
                    (Sim.Update (Sim.client Sim.conn) Sim.retagged).2).2
  = [EvUpdateTags "tgw-rtb-abc" {[ "env" := "prod" ]} ∅].
Proof.
  apply (Update_repeats_its_call Sim.updateTags (Sim.client Sim.conn) Sim.retagged).
  intros Heq. vm_compute in Heq. discriminate Heq.
Defined.
